(** * Session lifecycle and bot-control orchestration of the trading-bot client

    A shallow embedding of the React components [AuthProvider],
    [ProtectedRoute], [Dashboard] and [TradingHistory].

    Every component is a record of its [useState] cells together with the
    part of the environment its handlers talk to: the persisted token, the
    requests sent so far, the [async] functions parked at an [await] and the
    armed [setTimeout] callbacks.  An [async] function is cut at each
    [await]: the part before it is a [_begin] function, the part after it a
    [resume] function taking the reply of the backend.  The event loop is
    single threaded, so one event is one total function on states. *)

From Stdlib Require Import List String ZArith Bool Lia.
Import ListNotations.
Open Scope string_scope.
Open Scope list_scope.

(** ** Shared data *)

(** The token cell holds [null] or a string. *)
Definition Token := option string.

(** JavaScript truthiness of a token cell ([if (token)], [!token]):
    [null] and the empty string are falsy. *)
Definition truthy (t : Token) : bool :=
  match t with
  | Some s => negb (String.eqb s "")
  | None => false
  end.

(** [Object.is] on two token values, as the dependency array [[token]]
    compares them. *)
Definition token_eqb (a b : Token) : bool :=
  match a, b with
  | Some x, Some y => String.eqb x y
  | None, None => true
  | _, _ => false
  end.

Record UserProfile := mkUser {
  user_id : string;
  username : string;
  email : string
}.

Record Account := mkAccount {
  account_id : string;
  account_name : string;
  is_demo : bool
}.

Record Strategy := mkStrategy {
  strategy_id : string;
  strategy_name : string
}.

Record TradeRecord := mkTrade {
  trade_id : string;
  asset : string;
  amount : Z
}.

(** Removal of the [i]-th element of a list of parked continuations. *)
Fixpoint remove_nth {A : Type} (i : nat) (l : list A) {struct l} : list A :=
  match l with
  | [] => []
  | h :: t =>
      match i with
      | O => t
      | S j => h :: remove_nth j t
      end
  end.

(** ** AuthProvider and ProtectedRoute *)

Module Auth.

(** Why [axios.get] rejected; the [catch] block does not look at it. *)
Inductive Failure := Expired | InvalidToken | NetworkError.

(** Settlement of [GET /users/me]. *)
Inductive Reply :=
| Fulfilled (data : UserProfile)
| Rejected (why : Failure).

Record State := mk {
  token : Token;                (* useState(localStorage.getItem('token')) *)
  user : option UserProfile;    (* useState(null) *)
  loading : bool;               (* useState(true) *)
  stored : option string;       (* localStorage item 'token' *)
  inflight : list string        (* token captured by each verifyToken call
                                   parked at its await, oldest first *)
}.

Definition initial (persisted : option string) : State :=
  mk persisted None true persisted [].

Definition setToken (t : Token) (s : State) : State :=
  mk t (user s) (loading s) (stored s) (inflight s).
Definition setUser (u : option UserProfile) (s : State) : State :=
  mk (token s) u (loading s) (stored s) (inflight s).
Definition setLoading (b : bool) (s : State) : State :=
  mk (token s) (user s) b (stored s) (inflight s).
Definition setItem (v : string) (s : State) : State :=
  mk (token s) (user s) (loading s) (Some v) (inflight s).
Definition removeItem (s : State) : State :=
  mk (token s) (user s) (loading s) None (inflight s).
Definition send (t : string) (s : State) : State :=
  mk (token s) (user s) (loading s) (stored s) (inflight s ++ [t]).
Definition unpark (i : nat) (s : State) : State :=
  mk (token s) (user s) (loading s) (stored s) (remove_nth i (inflight s)).

(** [verifyToken] up to its [await]: with a truthy token the request is
    sent under that token; otherwise the function runs to its end. *)
Definition verifyToken_begin (s : State) : State :=
  match token s with
  | Some t => if String.eqb t "" then setLoading false s else send t s
  | None => setLoading false s
  end.

(** [verifyToken] after its [await]: the [try] continuation or the [catch]
    block, then [setLoading(false)].  The token the call was issued under
    is not consulted. *)
Definition verifyToken_resume (r : Reply) (s : State) : State :=
  match r with
  | Fulfilled data => setLoading false (setUser (Some data) s)
  | Rejected _ => setLoading false (removeItem (setToken None s))
  end.

(** The effect with dependency array [[token]]: after a handler has run,
    [verifyToken] is started again when the token cell changed. *)
Definition effect (before after : State) : State :=
  if token_eqb (token before) (token after) then after
  else verifyToken_begin after.

(** First render followed by the mount effect. *)
Definition mount (persisted : option string) : State :=
  verifyToken_begin (initial persisted).

Definition login (newToken : string) (s : State) : State :=
  effect s (setItem newToken (setToken (Some newToken) s)).

Definition logout (s : State) : State :=
  effect s (removeItem (setUser None (setToken None s))).

Inductive Event :=
| Login (newToken : string)
| Logout
| Settle (i : nat) (r : Reply).

(** One turn of the event loop.  Settling a request that is not in flight
    is not an event of the program and leaves the state as it is. *)
Definition step (s : State) (e : Event) : State :=
  match e with
  | Login t => login t s
  | Logout => logout s
  | Settle i r =>
      match nth_error (inflight s) i with
      | Some _ => effect s (verifyToken_resume r (unpark i s))
      | None => s
      end
  end.

Definition run (s : State) (evs : list Event) : State :=
  fold_left step evs s.

(** The decision of [ProtectedRoute]. *)
Inductive Access := pending | denied | granted.

Definition ProtectedRoute (s : State) : Access :=
  if loading s then pending
  else if negb (truthy (token s)) then denied
  else granted.

(** The source keeps no status cell.  The four statuses of the session are
    read off the three cells it does keep: while [loading] the start-up
    pass has not finished; afterwards a falsy token is an invalid session,
    a token with a profile a verified one, and a token without a profile
    one whose verification is still outstanding. *)
Inductive Status := Unverified | Verifying | Verified | Invalid.

Definition status (s : State) : Status :=
  if loading s then (if truthy (token s) then Verifying else Unverified)
  else if negb (truthy (token s)) then Invalid
  else match user s with
       | Some _ => Verified
       | None => Verifying
       end.

(** What a consumer of the context can see, and the durable item. *)
Definition session (s : State) : Token * option UserProfile * bool * option string :=
  (token s, user s, loading s, stored s).

End Auth.

(** ** TradingHistory page *)

Module HistoryPage.

(** Settlement of [GET /trading/history]. *)
Inductive Reply :=
| Fulfilled (data : list TradeRecord)
| Rejected.

Record State := mk {
  token : Token;                      (* useAuth().token *)
  tradingHistory : list TradeRecord;  (* useState([]) *)
  isLoading : bool;                   (* useState(true) *)
  error : string;                     (* useState('') *)
  inflight : list Token               (* bearer of each fetchHistory call
                                         parked at its await *)
}.

Definition initial (t : Token) : State := mk t [] true "" [].

Definition setTradingHistory (h : list TradeRecord) (s : State) : State :=
  mk (token s) h (isLoading s) (error s) (inflight s).
Definition setIsLoading (b : bool) (s : State) : State :=
  mk (token s) (tradingHistory s) b (error s) (inflight s).
Definition setError (m : string) (s : State) : State :=
  mk (token s) (tradingHistory s) (isLoading s) m (inflight s).
Definition send (t : Token) (s : State) : State :=
  mk (token s) (tradingHistory s) (isLoading s) (error s) (inflight s ++ [t]).
Definition unpark (i : nat) (s : State) : State :=
  mk (token s) (tradingHistory s) (isLoading s) (error s)
     (remove_nth i (inflight s)).
Definition withToken (t : Token) (s : State) : State :=
  mk t (tradingHistory s) (isLoading s) (error s) (inflight s).

(** [fetchHistory] up to its [await]. *)
Definition fetchHistory_begin (s : State) : State :=
  send (token s) (setIsLoading true s).

(** [fetchHistory] after its [await]: [try] continuation or [catch], then
    [finally]. *)
Definition fetchHistory_resume (r : Reply) (s : State) : State :=
  match r with
  | Fulfilled data => setIsLoading false (setTradingHistory data s)
  | Rejected =>
      setIsLoading false
        (setError "Failed to load trading history. Please try again later." s)
  end.

Definition mount (t : Token) : State := fetchHistory_begin (initial t).

Inductive Event :=
| TokenProp (t : Token)          (* the context hands down another token *)
| Settle (i : nat) (r : Reply).

Definition step (s : State) (e : Event) : State :=
  match e with
  | TokenProp t =>
      if token_eqb (token s) t then s
      else fetchHistory_begin (withToken t s)
  | Settle i r =>
      match nth_error (inflight s) i with
      | Some _ => fetchHistory_resume r (unpark i s)
      | None => s
      end
  end.

Definition run (s : State) (evs : list Event) : State :=
  fold_left step evs s.

End HistoryPage.

(** ** Dashboard *)

Module Dashboard.

Inductive Endpoint :=
| GetAccounts                      (* GET /users/me/accounts *)
| GetStrategies                    (* GET /users/me/strategies *)
| GetHistory                       (* GET /trading/history *)
| PostSimulate (account strategy symbol : string) (charging_mode : bool).
                                   (* POST /simulate/trading *)

(** A request as it leaves the client: endpoint and the token put in the
    [Authorization] header. *)
Record Request := mkReq {
  endpoint : Endpoint;
  bearer : Token
}.

(** The body of a fulfilled reply. *)
Inductive Data :=
| Accounts (l : list Account)
| Strategies (l : list Strategy)
| History (l : list TradeRecord)
| Ack.

Inductive Reply :=
| Fulfilled (data : Data)
| Rejected.

(** An [async] function parked at an [await], with what its closure
    holds. *)
Inductive Parked :=
| AwaitAccounts (tk : Token)
| AwaitStrategies (tk : Token) (accs : list Account)
| AwaitHistory (tk : Token) (accs : list Account) (strats : list Strategy)
| AwaitStartTrigger (tk : Token)
| AwaitStartHistory (tk : Token)
| AwaitChargeTrigger (tk : Token)
| AwaitChargeHistory (tk : Token).

Record State := mk {
  token : Token;                        (* useAuth().token *)
  accounts : list Account;              (* useState([]) *)
  strategies : list Strategy;           (* useState([]) *)
  selectedAccount : option Account;     (* useState(null) *)
  selectedStrategy : option Strategy;   (* useState(null) *)
  isLoading : bool;                     (* useState(true) *)
  error : string;                       (* useState('') *)
  chartSymbol : string;                 (* useState('EURUSD') *)
  tradingHistory : list TradeRecord;    (* useState([]) *)
  botRunning : bool;                    (* useState(false) *)
  net : list Request;                   (* requests sent, oldest first *)
  waiting : list Parked;                (* parked async functions *)
  timers : list Z                       (* delay in ms of each armed
                                           () => setBotRunning(false) *)
}.

Definition initial (t : Token) : State :=
  mk t [] [] None None true "" "EURUSD" [] false [] [] [].

Definition setAccounts (v : list Account) (s : State) : State :=
  mk (token s) v (strategies s) (selectedAccount s) (selectedStrategy s)
     (isLoading s) (error s) (chartSymbol s) (tradingHistory s)
     (botRunning s) (net s) (waiting s) (timers s).
Definition setStrategies (v : list Strategy) (s : State) : State :=
  mk (token s) (accounts s) v (selectedAccount s) (selectedStrategy s)
     (isLoading s) (error s) (chartSymbol s) (tradingHistory s)
     (botRunning s) (net s) (waiting s) (timers s).
Definition setSelectedAccount (v : option Account) (s : State) : State :=
  mk (token s) (accounts s) (strategies s) v (selectedStrategy s)
     (isLoading s) (error s) (chartSymbol s) (tradingHistory s)
     (botRunning s) (net s) (waiting s) (timers s).
Definition setSelectedStrategy (v : option Strategy) (s : State) : State :=
  mk (token s) (accounts s) (strategies s) (selectedAccount s) v
     (isLoading s) (error s) (chartSymbol s) (tradingHistory s)
     (botRunning s) (net s) (waiting s) (timers s).
Definition setIsLoading (v : bool) (s : State) : State :=
  mk (token s) (accounts s) (strategies s) (selectedAccount s)
     (selectedStrategy s) v (error s) (chartSymbol s) (tradingHistory s)
     (botRunning s) (net s) (waiting s) (timers s).
Definition setError (v : string) (s : State) : State :=
  mk (token s) (accounts s) (strategies s) (selectedAccount s)
     (selectedStrategy s) (isLoading s) v (chartSymbol s) (tradingHistory s)
     (botRunning s) (net s) (waiting s) (timers s).
Definition setTradingHistory (v : list TradeRecord) (s : State) : State :=
  mk (token s) (accounts s) (strategies s) (selectedAccount s)
     (selectedStrategy s) (isLoading s) (error s) (chartSymbol s) v
     (botRunning s) (net s) (waiting s) (timers s).
Definition setBotRunning (v : bool) (s : State) : State :=
  mk (token s) (accounts s) (strategies s) (selectedAccount s)
     (selectedStrategy s) (isLoading s) (error s) (chartSymbol s)
     (tradingHistory s) v (net s) (waiting s) (timers s).
Definition withToken (v : Token) (s : State) : State :=
  mk v (accounts s) (strategies s) (selectedAccount s)
     (selectedStrategy s) (isLoading s) (error s) (chartSymbol s)
     (tradingHistory s) (botRunning s) (net s) (waiting s) (timers s).
Definition withNet (v : list Request) (s : State) : State :=
  mk (token s) (accounts s) (strategies s) (selectedAccount s)
     (selectedStrategy s) (isLoading s) (error s) (chartSymbol s)
     (tradingHistory s) (botRunning s) v (waiting s) (timers s).
Definition withWaiting (v : list Parked) (s : State) : State :=
  mk (token s) (accounts s) (strategies s) (selectedAccount s)
     (selectedStrategy s) (isLoading s) (error s) (chartSymbol s)
     (tradingHistory s) (botRunning s) (net s) v (timers s).
Definition withTimers (v : list Z) (s : State) : State :=
  mk (token s) (accounts s) (strategies s) (selectedAccount s)
     (selectedStrategy s) (isLoading s) (error s) (chartSymbol s)
     (tradingHistory s) (botRunning s) (net s) (waiting s) v.

(** [await axios...]: the request leaves and the function parks. *)
Definition await (e : Endpoint) (tk : Token) (k : Parked) (s : State) : State :=
  withWaiting (waiting s ++ [k]) (withNet (net s ++ [mkReq e tk]) s).

(** [setTimeout(() => setBotRunning(false), ms)]. *)
Definition setTimeout (ms : Z) (s : State) : State :=
  withTimers (timers s ++ [ms]) s.

Definition unpark (i : nat) (s : State) : State :=
  withWaiting (remove_nth i (waiting s)) s.
Definition disarm (i : nat) (s : State) : State :=
  withTimers (remove_nth i (timers s)) s.

(** [fetchData] up to its first [await] (lines 473-478). *)
Definition fetchData_begin (s : State) : State :=
  await GetAccounts (token s) (AwaitAccounts (token s)) (setIsLoading true s).

(** The [catch] and [finally] blocks of [fetchData]. *)
Definition fetchData_failed (s : State) : State :=
  setIsLoading false
    (setError "Failed to load data. Please try again later." s).

(** "Set default selections if available" (lines 493-500): the tests are on
    the length of the two replies only. *)
Definition selectDefaults (accs : list Account) (strats : list Strategy)
    (s : State) : State :=
  let s1 := match accs with
            | a :: _ => setSelectedAccount (Some a) s
            | [] => s
            end in
  match strats with
  | st :: _ => setSelectedStrategy (Some st) s1
  | [] => s1
  end.

Definition trade_failed : string := "Failed to execute trade. Please try again.".
Definition charging_failed : string :=
  "Failed to activate charging mode. Please try again.".
Definition select_first : string := "Please select an account and strategy first.".

(** Whether the body of a fulfilled reply has the shape the parked function
    awaits (section 6 of the contract). *)
Definition fits (k : Parked) (r : Reply) : bool :=
  match r with
  | Rejected => true
  | Fulfilled d =>
      match k, d with
      | AwaitAccounts _, Accounts _ => true
      | AwaitStrategies _ _, Strategies _ => true
      | AwaitHistory _ _ _, History _ => true
      | AwaitStartTrigger _, Ack => true
      | AwaitStartHistory _, History _ => true
      | AwaitChargeTrigger _, Ack => true
      | AwaitChargeHistory _, History _ => true
      | _, _ => false
      end
  end.

(** The rest of a parked function once its [await] settles, up to its next
    [await] or its end. *)
Definition resume (k : Parked) (r : Reply) (s : State) : State :=
  match k, r with
  (* fetchData *)
  | AwaitAccounts tk, Fulfilled (Accounts l) =>
      await GetStrategies tk (AwaitStrategies tk l) (setAccounts l s)
  | AwaitStrategies tk accs, Fulfilled (Strategies l) =>
      await GetHistory tk (AwaitHistory tk accs l) (setStrategies l s)
  | AwaitHistory tk accs strats, Fulfilled (History h) =>
      setIsLoading false (selectDefaults accs strats (setTradingHistory h s))
  | AwaitAccounts _, Rejected => fetchData_failed s
  | AwaitStrategies _ _, Rejected => fetchData_failed s
  | AwaitHistory _ _ _, Rejected => fetchData_failed s
  (* handleStartBot: the finally block arms the timer *)
  | AwaitStartTrigger tk, Fulfilled Ack =>
      await GetHistory tk (AwaitStartHistory tk) s
  | AwaitStartHistory _, Fulfilled (History h) =>
      setTimeout 5000 (setTradingHistory h s)
  | AwaitStartTrigger _, Rejected => setTimeout 5000 (setError trade_failed s)
  | AwaitStartHistory _, Rejected => setTimeout 5000 (setError trade_failed s)
  (* handleChargingMode: no finally block *)
  | AwaitChargeTrigger tk, Fulfilled Ack =>
      await GetHistory tk (AwaitChargeHistory tk) s
  | AwaitChargeHistory _, Fulfilled (History h) => setTradingHistory h s
  | AwaitChargeTrigger _, Rejected => setError charging_failed s
  | AwaitChargeHistory _, Rejected => setError charging_failed s
  | _, _ => s
  end.

Definition handleStartBot (s : State) : State :=
  match selectedAccount s, selectedStrategy s with
  | Some a, Some st =>
      await (PostSimulate (account_id a) (strategy_id st) (chartSymbol s) false)
            (token s) (AwaitStartTrigger (token s))
            (setBotRunning true s)
  | _, _ => setError select_first s
  end.

Definition handleStopBot (s : State) : State := setBotRunning false s.

Definition handleChargingMode (s : State) : State :=
  match selectedAccount s, selectedStrategy s with
  | Some a, Some st =>
      await (PostSimulate (account_id a) (strategy_id st) (chartSymbol s) true)
            (token s) (AwaitChargeTrigger (token s))
            (setBotRunning true s)
  | _, _ => setError select_first s
  end.

(** First render followed by the mount effect. *)
Definition mount (t : Token) : State := fetchData_begin (initial t).

Inductive Event :=
| TokenProp (t : Token)          (* the context hands down another token *)
| SelectAccount (value : string)   (* onChange of the account select *)
| SelectStrategy (value : string)  (* onChange of the strategy select *)
| DismissError
| StartBot                       (* Power ON *)
| ChargingMode                   (* Charging UP *)
| StopBot                        (* Power OFF *)
| Settle (i : nat) (r : Reply)   (* the i-th parked function is resumed *)
| Fire (i : nat).                (* the i-th armed timer goes off *)

(** Which controls the render offers: the spinner replaces the page while
    [isLoading]; Power ON and Charging UP are shown while the bot is not
    running, Charging UP disabled without a selection; Power OFF is shown
    while it is running. *)
Definition offered (s : State) (e : Event) : bool :=
  match e with
  | TokenProp _ | Settle _ _ | Fire _ => true
  | SelectAccount _ | SelectStrategy _ => negb (isLoading s)
  | DismissError => negb (isLoading s) && negb (String.eqb (error s) "")
  | StartBot => negb (isLoading s) && negb (botRunning s)
  | ChargingMode =>
      negb (isLoading s) && negb (botRunning s) &&
      match selectedAccount s, selectedStrategy s with
      | Some _, Some _ => true
      | _, _ => false
      end
  | StopBot => negb (isLoading s) && botRunning s
  end.

Definition handle (s : State) (e : Event) : State :=
  match e with
  | TokenProp t =>
      if token_eqb (token s) t then s else fetchData_begin (withToken t s)
  | SelectAccount v =>
      setSelectedAccount
        (find (fun a => String.eqb (account_id a) v) (accounts s)) s
  | SelectStrategy v =>
      setSelectedStrategy
        (find (fun st => String.eqb (strategy_id st) v) (strategies s)) s
  | DismissError => setError "" s
  | StartBot => handleStartBot s
  | ChargingMode => handleChargingMode s
  | StopBot => handleStopBot s
  | Settle i r =>
      match nth_error (waiting s) i with
      | Some k => if fits k r then resume k r (unpark i s) else s
      | None => s
      end
  | Fire i =>
      match nth_error (timers s) i with
      | Some _ => setBotRunning false (disarm i s)
      | None => s
      end
  end.

(** One turn of the event loop; an event the page does not offer leaves the
    state as it is. *)
Definition step (s : State) (e : Event) : State :=
  if offered s e then handle s e else s.

Definition run (s : State) (evs : list Event) : State :=
  fold_left step evs s.

(** How many of the requests are history fetches. *)
Definition is_history (q : Request) : bool :=
  match endpoint q with
  | GetHistory => true
  | _ => false
  end.


End Dashboard.

(** ** Login and Register pages *)

(** [detail || fallback] on the [detail] of an error reply: a missing or
    empty detail is falsy. *)
Definition or_default (detail : option string) (fallback : string) : string :=
  match detail with
  | Some m => if String.eqb m "" then fallback else m
  | None => fallback
  end.

Module LoginPage.

Record Form := mkForm {
  username : string;
  password : string
}.

Inductive Field := Username | Password.

(** Settlement of [POST /login]. *)
Inductive Reply :=
| Fulfilled (access_token : string)
| Rejected (detail : option string).

Record State := mk {
  formData : Form;        (* useState({username: '', password: ''}) *)
  error : string;         (* useState('') *)
  loading : bool;         (* useState(false) *)
  auth : Auth.State;      (* the provider whose [login] the page calls *)
  route : string;         (* the location, as [navigate] sets it *)
  posted : list Form;     (* bodies of the login requests sent *)
  waiting : nat           (* handleSubmit calls parked at their await *)
}.

Definition initial (a : Auth.State) : State :=
  mk (mkForm "" "") "" false a "/login" [] 0.

Definition setFormData (v : Form) (s : State) : State :=
  mk v (error s) (loading s) (auth s) (route s) (posted s) (waiting s).
Definition setError (v : string) (s : State) : State :=
  mk (formData s) v (loading s) (auth s) (route s) (posted s) (waiting s).
Definition setLoading (v : bool) (s : State) : State :=
  mk (formData s) (error s) v (auth s) (route s) (posted s) (waiting s).
Definition withAuth (v : Auth.State) (s : State) : State :=
  mk (formData s) (error s) (loading s) v (route s) (posted s) (waiting s).
Definition navigate (v : string) (s : State) : State :=
  mk (formData s) (error s) (loading s) (auth s) v (posted s) (waiting s).
Definition await (body : Form) (s : State) : State :=
  mk (formData s) (error s) (loading s) (auth s) (route s)
     (posted s ++ [body]) (S (waiting s)).
Definition unpark (s : State) : State :=
  mk (formData s) (error s) (loading s) (auth s) (route s) (posted s)
     (pred (waiting s)).

Definition handleChange (f : Field) (value : string) (s : State) : State :=
  match f with
  | Username => setFormData (mkForm value (password (formData s))) s
  | Password => setFormData (mkForm (username (formData s)) value) s
  end.

(** [handleSubmit] up to its [await]. *)
Definition handleSubmit_begin (s : State) : State :=
  await (formData s) (setError "" (setLoading true s)).

(** [handleSubmit] after its [await]. *)
Definition handleSubmit_resume (r : Reply) (s : State) : State :=
  match r with
  | Fulfilled access_token =>
      setLoading false
        (navigate "/" (withAuth (Auth.login access_token (auth s)) s))
  | Rejected detail =>
      setLoading false
        (setError (or_default detail "Login failed. Please try again.") s)
  end.

Inductive Event :=
| Change (f : Field) (value : string)
| Submit
| Settle (r : Reply).

(** The submit button is disabled while [loading]; the browser's own check
    of the required fields may refuse more. *)
Definition offered (s : State) (e : Event) : bool :=
  match e with
  | Change _ _ => true
  | Submit => negb (loading s)
  | Settle _ => negb (Nat.eqb (waiting s) 0)
  end.

Definition handle (s : State) (e : Event) : State :=
  match e with
  | Change f v => handleChange f v s
  | Submit => handleSubmit_begin s
  | Settle r => handleSubmit_resume r (unpark s)
  end.

Definition step (s : State) (e : Event) : State :=
  if offered s e then handle s e else s.

Definition run (s : State) (evs : list Event) : State :=
  fold_left step evs s.

End LoginPage.

Module RegisterPage.

Record Form := mkForm {
  username : string;
  email : string;
  password : string;
  confirmPassword : string
}.

(** The body of [POST /register]: the confirmation is not part of it. *)
Record Body := mkBody {
  body_username : string;
  body_email : string;
  body_password : string
}.

Inductive Field := Username | Email | Password | ConfirmPassword.

Inductive Reply :=
| Fulfilled
| Rejected (detail : option string).

Record State := mk {
  formData : Form;        (* useState({username: '', email: '', ...}) *)
  error : string;         (* useState('') *)
  loading : bool;         (* useState(false) *)
  route : string;         (* the location, as [navigate] sets it *)
  posted : list Body;     (* bodies of the register requests sent *)
  waiting : nat           (* handleSubmit calls parked at their await *)
}.

Definition initial : State := mk (mkForm "" "" "" "") "" false "/register" [] 0.

Definition setFormData (v : Form) (s : State) : State :=
  mk v (error s) (loading s) (route s) (posted s) (waiting s).
Definition setError (v : string) (s : State) : State :=
  mk (formData s) v (loading s) (route s) (posted s) (waiting s).
Definition setLoading (v : bool) (s : State) : State :=
  mk (formData s) (error s) v (route s) (posted s) (waiting s).
Definition navigate (v : string) (s : State) : State :=
  mk (formData s) (error s) (loading s) v (posted s) (waiting s).
Definition await (body : Body) (s : State) : State :=
  mk (formData s) (error s) (loading s) (route s)
     (posted s ++ [body]) (S (waiting s)).
Definition unpark (s : State) : State :=
  mk (formData s) (error s) (loading s) (route s) (posted s)
     (pred (waiting s)).

Definition handleChange (f : Field) (value : string) (s : State) : State :=
  let d := formData s in
  match f with
  | Username => setFormData (mkForm value (email d) (password d) (confirmPassword d)) s
  | Email => setFormData (mkForm (username d) value (password d) (confirmPassword d)) s
  | Password => setFormData (mkForm (username d) (email d) value (confirmPassword d)) s
  | ConfirmPassword => setFormData (mkForm (username d) (email d) (password d) value) s
  end.

(** [handleSubmit] up to its [await], or to its early [return]. *)
Definition handleSubmit_begin (s : State) : State :=
  let s1 := setError "" (setLoading true s) in
  let d := formData s in
  if String.eqb (password d) (confirmPassword d)
  then await (mkBody (username d) (email d) (password d)) s1
  else setLoading false (setError "Passwords do not match" s1).

(** [handleSubmit] after its [await]. *)
Definition handleSubmit_resume (r : Reply) (s : State) : State :=
  match r with
  | Fulfilled => setLoading false (navigate "/login" s)
  | Rejected detail =>
      setLoading false
        (setError (or_default detail "Registration failed. Please try again.") s)
  end.

Inductive Event :=
| Change (f : Field) (value : string)
| Submit
| Settle (r : Reply).

(** The submit button is disabled while [loading]; the browser's own check
    of the required fields may refuse more. *)
Definition offered (s : State) (e : Event) : bool :=
  match e with
  | Change _ _ => true
  | Submit => negb (loading s)
  | Settle _ => negb (Nat.eqb (waiting s) 0)
  end.

Definition handle (s : State) (e : Event) : State :=
  match e with
  | Change f v => handleChange f v s
  | Submit => handleSubmit_begin s
  | Settle r => handleSubmit_resume r (unpark s)
  end.

Definition step (s : State) (e : Event) : State :=
  if offered s e then handle s e else s.

Definition run (s : State) (evs : list Event) : State :=
  fold_left step evs s.

End RegisterPage.

(** ** Accounts page *)

Module AccountsPage.

Record Form := mkForm {
  form_account_name : string;
  form_username : string;
  form_password : string;
  form_is_demo : bool
}.

Definition emptyForm : Form := mkForm "" "" "" true.

(** What [handleChange] receives: a text input with its name and value, or
    the checkbox with its checked state. *)
Inductive Change :=
| AccountName (value : string)
| Username (value : string)
| Password (value : string)
| IsDemo (checked : bool).

Inductive Endpoint :=
| GetAccounts                    (* GET /users/me/accounts *)
| PostAccount (body : Form)      (* POST /users/me/accounts *)
| DeleteAccount (id : string).   (* DELETE /users/me/accounts/:id *)

Record Request := mkReq {
  endpoint : Endpoint;
  bearer : Token
}.

Inductive Data :=
| Rows (l : list Account)
| Row (a : Account)
| Empty.

Inductive Reply :=
| Fulfilled (data : Data)
| Rejected.

(** A parked function with what its closure holds: the handlers see the
    [accounts] of the render they were called from. *)
Inductive Parked :=
| AwaitFetch
| AwaitAdd (accounts : list Account)
| AwaitDelete (accounts : list Account) (accountId : string).

Record State := mk {
  token : Token;                 (* useAuth().token *)
  accounts : list Account;       (* useState([]) *)
  isLoading : bool;              (* useState(true) *)
  error : string;                (* useState('') *)
  isAddingAccount : bool;        (* useState(false) *)
  formData : Form;               (* useState({account_name: '', ...}) *)
  net : list Request;            (* requests sent, oldest first *)
  waiting : list Parked          (* parked async functions *)
}.

Definition initial (t : Token) : State :=
  mk t [] true "" false emptyForm [] [].

Definition setAccounts (v : list Account) (s : State) : State :=
  mk (token s) v (isLoading s) (error s) (isAddingAccount s) (formData s)
     (net s) (waiting s).
Definition setIsLoading (v : bool) (s : State) : State :=
  mk (token s) (accounts s) v (error s) (isAddingAccount s) (formData s)
     (net s) (waiting s).
Definition setError (v : string) (s : State) : State :=
  mk (token s) (accounts s) (isLoading s) v (isAddingAccount s) (formData s)
     (net s) (waiting s).
Definition setIsAddingAccount (v : bool) (s : State) : State :=
  mk (token s) (accounts s) (isLoading s) (error s) v (formData s)
     (net s) (waiting s).
Definition setFormData (v : Form) (s : State) : State :=
  mk (token s) (accounts s) (isLoading s) (error s) (isAddingAccount s) v
     (net s) (waiting s).
Definition withToken (v : Token) (s : State) : State :=
  mk v (accounts s) (isLoading s) (error s) (isAddingAccount s) (formData s)
     (net s) (waiting s).
Definition await (e : Endpoint) (k : Parked) (s : State) : State :=
  mk (token s) (accounts s) (isLoading s) (error s) (isAddingAccount s)
     (formData s) (net s ++ [mkReq e (token s)]) (waiting s ++ [k]).
Definition unpark (i : nat) (s : State) : State :=
  mk (token s) (accounts s) (isLoading s) (error s) (isAddingAccount s)
     (formData s) (net s) (remove_nth i (waiting s)).

Definition fetchAccounts_begin (s : State) : State :=
  await GetAccounts AwaitFetch (setIsLoading true s).

Definition handleChange (c : Change) (s : State) : State :=
  let d := formData s in
  match c with
  | AccountName v =>
      setFormData (mkForm v (form_username d) (form_password d) (form_is_demo d)) s
  | Username v =>
      setFormData (mkForm (form_account_name d) v (form_password d) (form_is_demo d)) s
  | Password v =>
      setFormData (mkForm (form_account_name d) (form_username d) v (form_is_demo d)) s
  | IsDemo b =>
      setFormData (mkForm (form_account_name d) (form_username d) (form_password d) b) s
  end.

(** [handleSubmit] up to its [await]. *)
Definition handleSubmit_begin (s : State) : State :=
  await (PostAccount (formData s)) (AwaitAdd (accounts s)) s.

(** [handleDeleteAccount] up to its [await]; [confirmed] is the answer of
    [window.confirm]. *)
Definition handleDeleteAccount_begin (accountId : string) (confirmed : bool)
    (s : State) : State :=
  if confirmed
  then await (DeleteAccount accountId) (AwaitDelete (accounts s) accountId) s
  else s.

Definition fits (k : Parked) (r : Reply) : bool :=
  match r with
  | Rejected => true
  | Fulfilled d =>
      match k, d with
      | AwaitFetch, Rows _ => true
      | AwaitAdd _, Row _ => true
      | AwaitDelete _ _, _ => true
      | _, _ => false
      end
  end.

(** The rest of a parked function once its [await] settles. *)
Definition resume (k : Parked) (r : Reply) (s : State) : State :=
  match k, r with
  | AwaitFetch, Fulfilled (Rows l) => setIsLoading false (setAccounts l s)
  | AwaitFetch, Rejected =>
      setIsLoading false
        (setError "Failed to load accounts. Please try again later." s)
  | AwaitAdd captured, Fulfilled (Row a) =>
      setFormData emptyForm
        (setIsAddingAccount false (setAccounts (captured ++ [a]) s))
  | AwaitAdd _, Rejected =>
      setError "Failed to add account. Please try again later." s
  | AwaitDelete captured accountId, Fulfilled _ =>
      setAccounts
        (filter (fun a => negb (String.eqb (account_id a) accountId)) captured) s
  | AwaitDelete _ _, Rejected =>
      setError "Failed to delete account. Please try again later." s
  | _, _ => s
  end.

Definition mount (t : Token) : State := fetchAccounts_begin (initial t).

Inductive Event :=
| TokenProp (t : Token)
| ToggleAdd                                   (* Add Account / Cancel *)
| Edit (c : Change)
| Submit
| Delete (accountId : string) (confirmed : bool)
| DismissError
| Settle (i : nat) (r : Reply).

(** The spinner replaces the page while [isLoading]; the form is rendered
    while [isAddingAccount]; a Delete button belongs to a listed account.
    The browser's own check of the required fields may refuse a submit. *)
Definition offered (s : State) (e : Event) : bool :=
  match e with
  | TokenProp _ | Settle _ _ => true
  | ToggleAdd => negb (isLoading s)
  | Edit _ | Submit => negb (isLoading s) && isAddingAccount s
  | Delete accountId _ =>
      negb (isLoading s) &&
      existsb (fun a => String.eqb (account_id a) accountId) (accounts s)
  | DismissError => negb (isLoading s) && negb (String.eqb (error s) "")
  end.

Definition handle (s : State) (e : Event) : State :=
  match e with
  | TokenProp t =>
      if token_eqb (token s) t then s else fetchAccounts_begin (withToken t s)
  | ToggleAdd => setIsAddingAccount (negb (isAddingAccount s)) s
  | Edit c => handleChange c s
  | Submit => handleSubmit_begin s
  | Delete accountId confirmed => handleDeleteAccount_begin accountId confirmed s
  | DismissError => setError "" s
  | Settle i r =>
      match nth_error (waiting s) i with
      | Some k => if fits k r then resume k r (unpark i s) else s
      | None => s
      end
  end.

Definition step (s : State) (e : Event) : State :=
  if offered s e then handle s e else s.

Definition run (s : State) (evs : list Event) : State :=
  fold_left step evs s.

End AccountsPage.

(** ** Strategies page *)

Module StrategiesPage.

Section WithNumbers.

(** JavaScript numbers are not computed with on this page, only parsed and
    passed on: the page is modelled over any carrier of numbers, with
    [parseFloat] and the number literals of the source as given. *)
Variable Num : Type.
Variable parseFloat : string -> Num.
Variable literal : Z -> Num.

(** What a form field can hold: number inputs hold what [parseFloat]
    returns, the expiry select holds the string of the chosen option. *)
Inductive Value :=
| VNum (n : Num)
| VStr (s : string).

Record Form := mkForm {
  name : string;
  rsi_upper_threshold : Value;
  rsi_lower_threshold : Value;
  trade_amount : Value;
  expiry_time : Value
}.

(** A strategy as the backend returns it. *)
Record Row := mkRow {
  id : string;
  fields : Form
}.

Definition defaultForm : Form :=
  mkForm "" (VNum (literal 60)) (VNum (literal 40)) (VNum (literal 10))
         (VNum (literal 60)).

(** What [handleChange] receives: the input's name with its raw value; the
    type of the input is fixed by the markup (text, number, select). *)
Inductive Change :=
| Name (value : string)
| TradeAmount (value : string)
| RsiUpper (value : string)
| RsiLower (value : string)
| ExpiryTime (value : string).

Inductive Endpoint :=
| GetStrategies                          (* GET /users/me/strategies *)
| PutStrategy (id : string) (body : Form)  (* PUT /users/me/strategies/:id *)
| PostStrategy (body : Form).            (* POST /users/me/strategies *)

Record Request := mkReq {
  endpoint : Endpoint;
  bearer : Token
}.

Inductive Data :=
| Rows (l : list Row)
| One (r : Row).

Inductive Reply :=
| Fulfilled (data : Data)
| Rejected.

Inductive Parked :=
| AwaitFetch
| AwaitUpdate (strategies : list Row) (editingStrategyId : string)
| AwaitCreate (strategies : list Row).

Record State := mk {
  token : Token;                        (* useAuth().token *)
  strategies : list Row;                (* useState([]) *)
  isLoading : bool;                     (* useState(true) *)
  error : string;                       (* useState('') *)
  isEditingStrategy : bool;             (* useState(false) *)
  editingStrategyId : option string;    (* useState(null) *)
  formData : Form;                      (* useState({name: '', ...}) *)
  net : list Request;                   (* requests sent, oldest first *)
  waiting : list Parked                 (* parked async functions *)
}.

Definition initial (t : Token) : State :=
  mk t [] true "" false None defaultForm [] [].

Definition setStrategies (v : list Row) (s : State) : State :=
  mk (token s) v (isLoading s) (error s) (isEditingStrategy s)
     (editingStrategyId s) (formData s) (net s) (waiting s).
Definition setIsLoading (v : bool) (s : State) : State :=
  mk (token s) (strategies s) v (error s) (isEditingStrategy s)
     (editingStrategyId s) (formData s) (net s) (waiting s).
Definition setError (v : string) (s : State) : State :=
  mk (token s) (strategies s) (isLoading s) v (isEditingStrategy s)
     (editingStrategyId s) (formData s) (net s) (waiting s).
Definition setIsEditingStrategy (v : bool) (s : State) : State :=
  mk (token s) (strategies s) (isLoading s) (error s) v
     (editingStrategyId s) (formData s) (net s) (waiting s).
Definition setEditingStrategyId (v : option string) (s : State) : State :=
  mk (token s) (strategies s) (isLoading s) (error s) (isEditingStrategy s)
     v (formData s) (net s) (waiting s).
Definition setFormData (v : Form) (s : State) : State :=
  mk (token s) (strategies s) (isLoading s) (error s) (isEditingStrategy s)
     (editingStrategyId s) v (net s) (waiting s).
Definition withToken (v : Token) (s : State) : State :=
  mk v (strategies s) (isLoading s) (error s) (isEditingStrategy s)
     (editingStrategyId s) (formData s) (net s) (waiting s).
Definition await (e : Endpoint) (k : Parked) (s : State) : State :=
  mk (token s) (strategies s) (isLoading s) (error s) (isEditingStrategy s)
     (editingStrategyId s) (formData s) (net s ++ [mkReq e (token s)])
     (waiting s ++ [k]).
Definition unpark (i : nat) (s : State) : State :=
  mk (token s) (strategies s) (isLoading s) (error s) (isEditingStrategy s)
     (editingStrategyId s) (formData s) (net s) (remove_nth i (waiting s)).

Definition fetchStrategies_begin (s : State) : State :=
  await GetStrategies AwaitFetch (setIsLoading true s).

Definition handleChange (c : Change) (s : State) : State :=
  let d := formData s in
  match c with
  | Name v =>
      setFormData (mkForm v (rsi_upper_threshold d) (rsi_lower_threshold d)
                          (trade_amount d) (expiry_time d)) s
  | TradeAmount v =>
      setFormData (mkForm (name d) (rsi_upper_threshold d) (rsi_lower_threshold d)
                          (VNum (parseFloat v)) (expiry_time d)) s
  | RsiUpper v =>
      setFormData (mkForm (name d) (VNum (parseFloat v)) (rsi_lower_threshold d)
                          (trade_amount d) (expiry_time d)) s
  | RsiLower v =>
      setFormData (mkForm (name d) (rsi_upper_threshold d) (VNum (parseFloat v))
                          (trade_amount d) (expiry_time d)) s
  | ExpiryTime v =>
      setFormData (mkForm (name d) (rsi_upper_threshold d) (rsi_lower_threshold d)
                          (trade_amount d) (VStr v)) s
  end.

Definition handleEditStrategy (strategy : Row) (s : State) : State :=
  setIsEditingStrategy true
    (setEditingStrategyId (Some (id strategy))
       (setFormData
          (mkForm (name (fields strategy))
                  (rsi_upper_threshold (fields strategy))
                  (rsi_lower_threshold (fields strategy))
                  (trade_amount (fields strategy))
                  (expiry_time (fields strategy))) s)).

(** The Add Strategy / Cancel button. *)
Definition toggleForm (s : State) : State :=
  setFormData defaultForm
    (setEditingStrategyId None
       (setIsEditingStrategy (negb (isEditingStrategy s)) s)).

(** [handleSubmit] up to its [await]: [if (editingStrategyId)] is a
    truthiness test, so [null] and the empty string both take the create
    branch. *)
Definition handleSubmit_begin (s : State) : State :=
  match editingStrategyId s with
  | Some eid =>
      if String.eqb eid ""
      then await (PostStrategy (formData s)) (AwaitCreate (strategies s)) s
      else await (PutStrategy eid (formData s)) (AwaitUpdate (strategies s) eid) s
  | None => await (PostStrategy (formData s)) (AwaitCreate (strategies s)) s
  end.

(** What [handleSubmit] does after either request was fulfilled (lines
    1315-1323): the form is closed and put back to its defaults. *)
Definition closeForm (s : State) : State :=
  setFormData defaultForm (setEditingStrategyId None (setIsEditingStrategy false s)).

Definition fits (k : Parked) (r : Reply) : bool :=
  match r with
  | Rejected => true
  | Fulfilled d =>
      match k, d with
      | AwaitFetch, Rows _ => true
      | AwaitUpdate _ _, One _ => true
      | AwaitCreate _, One _ => true
      | _, _ => false
      end
  end.

(** The rest of a parked function once its [await] settles. *)
Definition resume (k : Parked) (r : Reply) (s : State) : State :=
  match k, r with
  | AwaitFetch, Fulfilled (Rows l) => setIsLoading false (setStrategies l s)
  | AwaitFetch, Rejected =>
      setIsLoading false
        (setError "Failed to load strategies. Please try again later." s)
  | AwaitUpdate captured eid, Fulfilled (One r) =>
      closeForm
        (setStrategies
           (map (fun x => if String.eqb (id x) eid then r else x) captured) s)
  | AwaitCreate captured, Fulfilled (One r) =>
      closeForm (setStrategies (captured ++ [r]) s)
  | AwaitUpdate _ _, Rejected =>
      setError "Failed to save strategy. Please try again later." s
  | AwaitCreate _, Rejected =>
      setError "Failed to save strategy. Please try again later." s
  | _, _ => s
  end.

Definition mount (t : Token) : State := fetchStrategies_begin (initial t).

Inductive Event :=
| TokenProp (t : Token)
| ToggleForm
| Edit (strategy : Row)
| Input (c : Change)
| Submit
| DismissError
| Settle (i : nat) (r : Reply).

Definition row_eqb_id (strategy x : Row) : bool := String.eqb (id x) (id strategy).

(** The spinner replaces the page while [isLoading]; the form is rendered
    while [isEditingStrategy]; an Edit button belongs to a listed row.  The
    browser's own check of the required fields may refuse a submit. *)
Definition offered (s : State) (e : Event) : bool :=
  match e with
  | TokenProp _ | Settle _ _ => true
  | ToggleForm => negb (isLoading s)
  | Edit strategy =>
      negb (isLoading s) && existsb (row_eqb_id strategy) (strategies s)
  | Input _ | Submit => negb (isLoading s) && isEditingStrategy s
  | DismissError => negb (isLoading s) && negb (String.eqb (error s) "")
  end.

Definition handle (s : State) (e : Event) : State :=
  match e with
  | TokenProp t =>
      if token_eqb (token s) t then s else fetchStrategies_begin (withToken t s)
  | ToggleForm => toggleForm s
  | Edit strategy => handleEditStrategy strategy s
  | Input c => handleChange c s
  | Submit => handleSubmit_begin s
  | DismissError => setError "" s
  | Settle i r =>
      match nth_error (waiting s) i with
      | Some k => if fits k r then resume k r (unpark i s) else s
      | None => s
      end
  end.

Definition step (s : State) (e : Event) : State :=
  if offered s e then handle s e else s.

Definition run (s : State) (evs : list Event) : State :=
  fold_left step evs s.

End WithNumbers.

End StrategiesPage.

(** ** Theme provider and theme switcher *)

Module Theme.

Definition DEFAULT : string := "default".
Definition GREEN_GOBLIN : string := "green-goblin".
Definition FUTURISTIC : string := "futuristic".
Definition CYBERPUNK : string := "cyberpunk".
Definition JARVIS : string := "jarvis".

Definition THEMES : list string :=
  [DEFAULT; GREEN_GOBLIN; FUTURISTIC; CYBERPUNK; JARVIS].

(** The [switch] of the effect: the stylesheet of each theme, with the
    [default] branch for every other string. *)
Definition fontsFor (theme : string) : string :=
  if String.eqb theme GREEN_GOBLIN then
    "https://fonts.googleapis.com/css2?family=Oswald:wght@400;500;600;700&family=Roboto+Condensed:wght@300;400;700&display=swap"
  else if String.eqb theme FUTURISTIC then
    "https://fonts.googleapis.com/css2?family=Exo+2:wght@300;400;600;700&family=Inter:wght@300;400;500;600&display=swap"
  else if String.eqb theme CYBERPUNK then
    "https://fonts.googleapis.com/css2?family=Chakra+Petch:wght@300;400;600;700&family=Share+Tech+Mono&display=swap"
  else if String.eqb theme JARVIS then
    "https://fonts.googleapis.com/css2?family=Rajdhani:wght@400;500;600;700&family=Titillium+Web:wght@300;400;600&display=swap"
  else
    "https://fonts.googleapis.com/css2?family=Inter:wght@300;400;500;600;700&display=swap".

(** ASCII whitespace, which [classList.add] refuses in a token. *)
Definition is_space (c : Ascii.ascii) : bool :=
  match Ascii.nat_of_ascii c with
  | 9 | 10 | 12 | 13 | 32 => true
  | _ => false
  end.

Fixpoint has_space (s : string) : bool :=
  match s with
  | EmptyString => false
  | String c rest => is_space c || has_space rest
  end.

Record State := mk {
  theme : string;               (* useState(savedTheme || 'default') *)
  stored : option string;       (* localStorage item 'theme' *)
  bodyClass : list string;      (* the class tokens of document.body *)
  fontLinks : list string       (* href of each element with id
                                   'theme-fonts', in document order *)
}.

Definition setItem (v : string) (s : State) : State :=
  mk (theme s) (Some v) (bodyClass s) (fontLinks s).
Definition setBodyClass (v : list string) (s : State) : State :=
  mk (theme s) (stored s) v (fontLinks s).
Definition setFontLinks (v : list string) (s : State) : State :=
  mk (theme s) (stored s) (bodyClass s) v.
Definition withTheme (v : string) (s : State) : State :=
  mk v (stored s) (bodyClass s) (fontLinks s).

(** An effect runs to its end or throws, leaving what it did before. *)
Inductive Outcome :=
| Done (s : State)
| Threw (s : State).

Definition state_of (o : Outcome) : State :=
  match o with
  | Done s => s
  | Threw s => s
  end.

(** The effect with dependency array [[theme]]. *)
Definition themeEffect (s : State) : Outcome :=
  let s1 := setItem (theme s) s in
  let s2 := setBodyClass [] s1 in
  let token := String.append "theme-" (theme s) in
  if has_space token then Threw s2
  else
    let s3 := setBodyClass [token] s2 in
    let href := fontsFor (theme s) in
    Done (match fontLinks s3 with
          | [] => setFontLinks [href] s3
          | _ :: others => setFontLinks (href :: others) s3
          end).

(** The lazy initial state: [savedTheme || THEMES.DEFAULT]. *)
Definition initialTheme (saved : option string) : string :=
  match saved with
  | Some t => if String.eqb t "" then DEFAULT else t
  | None => DEFAULT
  end.

(** First render on a document, followed by the mount effect. *)
Definition mount (saved : option string) (classes links : list string) : Outcome :=
  themeEffect (mk (initialTheme saved) saved classes links).

(** [setTheme]: a value equal to the current one schedules nothing. *)
Definition setTheme (t : string) (s : State) : Outcome :=
  if String.eqb t (theme s) then Done s else themeEffect (withTheme t s).

(** The five buttons of the theme switcher. *)
Inductive Button := Default | GreenGoblin | Futuristic | Cyberpunk | Jarvis.

Definition buttons : list Button :=
  [Default; GreenGoblin; Futuristic; Cyberpunk; Jarvis].

Definition theme_of (b : Button) : string :=
  match b with
  | Default => DEFAULT
  | GreenGoblin => GREEN_GOBLIN
  | Futuristic => FUTURISTIC
  | Cyberpunk => CYBERPUNK
  | Jarvis => JARVIS
  end.

(** Whether a button carries the ring classes. *)
Definition highlighted (current : string) (b : Button) : bool :=
  String.eqb current (theme_of b).

Definition click (o : Outcome) (b : Button) : Outcome :=
  match o with
  | Done s => setTheme (theme_of b) s
  | Threw s => Threw s
  end.

Definition run (o : Outcome) (clicks : list Button) : Outcome :=
  fold_left click clicks o.

End Theme.

(** ** Sample data *)

Definition alice : UserProfile := mkUser "1" "alice" "alice@example.org".
Definition bob : UserProfile := mkUser "2" "bob" "bob@example.org".
Definition A1 : Account := mkAccount "a1" "Practice" true.
Definition A2 : Account := mkAccount "a2" "Live" false.
Definition S1 : Strategy := mkStrategy "s1" "RSI 70/30".
Definition S2 : Strategy := mkStrategy "s2" "RSI 80/20".
Definition R1 : TradeRecord := mkTrade "r1" "EURUSD" 10.

(** ** Statements about the session store and the gate *)

(** States the provider can be in: the mount on some persisted item followed
    by any events. *)
Definition auth_reachable (s : Auth.State) : Prop :=
  exists persisted evs, s = Auth.run (Auth.mount persisted) evs.

(** The [i]-th verification in flight was issued under a token that is no
    longer the current one. *)
Definition stale (s : Auth.State) (i : nat) : Prop :=
  exists t, nth_error (Auth.inflight s) i = Some t /\ Auth.token s <> Some t.

(** The claim as it is worded: settling a stale request changes nothing a
    consumer of the session can see, nor the durable item. *)
Definition stale_results_discarded : Prop :=
  forall s i r,
    auth_reachable s -> stale s i ->
    Auth.session (Auth.step s (Auth.Settle i r)) = Auth.session s.

(** The gate as the claim words it. *)
Definition gate_follows_status (s : Auth.State) : Prop :=
  (Auth.ProtectedRoute s = Auth.pending <->
     Auth.status s = Auth.Unverified \/ Auth.status s = Auth.Verifying) /\
  (Auth.ProtectedRoute s = Auth.granted <-> Auth.status s = Auth.Verified) /\
  (Auth.status s = Auth.Invalid \/ truthy (Auth.token s) = false ->
     Auth.ProtectedRoute s = Auth.denied).

(** ** Statements about the dashboard *)

Definition dash_reachable (s : Dashboard.State) : Prop :=
  exists t evs, s = Dashboard.run (Dashboard.mount t) evs.

(** The page has loaded two accounts and two strategies. *)
Definition loaded : list Dashboard.Event :=
  [Dashboard.Settle 0 (Dashboard.Fulfilled (Dashboard.Accounts [A1; A2]));
   Dashboard.Settle 0 (Dashboard.Fulfilled (Dashboard.Strategies [S1; S2]));
   Dashboard.Settle 0 (Dashboard.Fulfilled (Dashboard.History [R1]))].

(** The claim as it is worded. *)
Definition defaults_keep_selection : Prop :=
  forall accs strats s,
    (Dashboard.selectedAccount s <> None ->
     Dashboard.selectedAccount (Dashboard.selectDefaults accs strats s)
     = Dashboard.selectedAccount s) /\
    (Dashboard.selectedStrategy s <> None ->
     Dashboard.selectedStrategy (Dashboard.selectDefaults accs strats s)
     = Dashboard.selectedStrategy s).

Definition requested (e : Dashboard.Request -> bool) (s : Dashboard.State) : bool :=
  existsb e (Dashboard.net s).

Definition is_strategies (q : Dashboard.Request) : bool :=
  match Dashboard.endpoint q with
  | Dashboard.GetStrategies => true
  | _ => false
  end.

(** The claim as it is worded: however the replies fall, once [fetchData]
    has run to its end all three loads have been sent. *)
Definition loads_independent : Prop :=
  forall t evs,
    let s := Dashboard.run (Dashboard.mount t) evs in
    Dashboard.waiting s = [] ->
    requested is_strategies s = true /\ requested Dashboard.is_history s = true.

(** What a rejected load leaves behind: the three collections and the
    selection as they were, nothing sent, the function gone from the parked
    ones, the spinner down and the error written. *)
Definition load_failed (s : Dashboard.State) (i : nat) (s' : Dashboard.State) : Prop :=
  Dashboard.accounts s' = Dashboard.accounts s /\
  Dashboard.strategies s' = Dashboard.strategies s /\
  Dashboard.tradingHistory s' = Dashboard.tradingHistory s /\
  Dashboard.selectedAccount s' = Dashboard.selectedAccount s /\
  Dashboard.selectedStrategy s' = Dashboard.selectedStrategy s /\
  Dashboard.net s' = Dashboard.net s /\
  Dashboard.waiting s' = remove_nth i (Dashboard.waiting s) /\
  Dashboard.isLoading s' = false /\
  Dashboard.error s' = "Failed to load data. Please try again later.".

(** The parked function is [handleStartBot] or [handleChargingMode] at its
    [POST /simulate/trading], and the token it was invoked under. *)
Definition is_trigger (k : Dashboard.Parked) : option Token :=
  match k with
  | Dashboard.AwaitStartTrigger tk => Some tk
  | Dashboard.AwaitChargeTrigger tk => Some tk
  | _ => None
  end.


(** The ways the requests of one trigger run can settle. *)
Inductive Outcome :=
| TriggerRejected
| HistoryRejected
| HistoryFulfilled (h : list TradeRecord).

(** The settlements of a run whose handler is parked at position [i], with
    nothing else settling in between (the function is parked again at the
    same position when it goes on to the history fetch). *)
Definition settlements (i : nat) (o : Outcome) : list Dashboard.Event :=
  match o with
  | TriggerRejected => [Dashboard.Settle i Dashboard.Rejected]
  | HistoryRejected =>
      [Dashboard.Settle i (Dashboard.Fulfilled Dashboard.Ack);
       Dashboard.Settle i Dashboard.Rejected]
  | HistoryFulfilled h =>
      [Dashboard.Settle i (Dashboard.Fulfilled Dashboard.Ack);
       Dashboard.Settle i (Dashboard.Fulfilled (Dashboard.History h))]
  end.

(** The settlement is the one after which [handleStartBot] reaches its
    [finally] block: its trigger is rejected, or its history fetch settles
    either way. *)
Definition ends_start_run (k : Dashboard.Parked) (r : Dashboard.Reply) : bool :=
  match k, r with
  | Dashboard.AwaitStartTrigger _, Dashboard.Rejected => true
  | Dashboard.AwaitStartHistory _, _ => true
  | _, _ => false
  end.

(** The parked function is [handleStartBot]. *)
Definition is_start (k : Dashboard.Parked) : bool :=
  match k with
  | Dashboard.AwaitStartTrigger _ | Dashboard.AwaitStartHistory _ => true
  | _ => false
  end.

(** No Power ON run is under way: no reset timer is armed and no
    [handleStartBot] is parked. *)
Definition no_start_run (s : Dashboard.State) : Prop :=
  Dashboard.timers s = [] /\
  forallb (fun k => negb (is_start k)) (Dashboard.waiting s) = true.

(** The claim as it is worded. *)
Definition charging_holds_until_stop : Prop :=
  forall s i tk evs,
    dash_reachable s ->
    nth_error (Dashboard.waiting s) i = Some (Dashboard.AwaitChargeTrigger tk) ->
    Dashboard.botRunning s = true ->
    ~ In Dashboard.StopBot evs ->
    Dashboard.botRunning
      (Dashboard.run (Dashboard.step s (Dashboard.Settle i Dashboard.Rejected)) evs)
    = true.

(** ** Statements about the order of the requests *)

(** What made a request leave: an accounts load leaves when [fetchData]
    starts (the token changed), a strategies load when an accounts load is
    fulfilled, a history load when a strategies load or a trigger is
    fulfilled, a trigger on Power ON or Charging UP; each under the token the
    function was called with. *)
Definition request_cause (s : Dashboard.State) (e : Dashboard.Event)
    (q : Dashboard.Request) : Prop :=
  match Dashboard.endpoint q with
  | Dashboard.GetAccounts =>
      e = Dashboard.TokenProp (Dashboard.bearer q)
  | Dashboard.GetStrategies =>
      exists i l,
        e = Dashboard.Settle i (Dashboard.Fulfilled (Dashboard.Accounts l)) /\
        nth_error (Dashboard.waiting s) i
        = Some (Dashboard.AwaitAccounts (Dashboard.bearer q))
  | Dashboard.GetHistory =>
      exists i,
        (exists l accs,
            e = Dashboard.Settle i (Dashboard.Fulfilled (Dashboard.Strategies l)) /\
            nth_error (Dashboard.waiting s) i
            = Some (Dashboard.AwaitStrategies (Dashboard.bearer q) accs)) \/
        (e = Dashboard.Settle i (Dashboard.Fulfilled Dashboard.Ack) /\
         exists k, nth_error (Dashboard.waiting s) i = Some k /\
                   is_trigger k = Some (Dashboard.bearer q))
  | Dashboard.PostSimulate _ _ _ charging =>
      (e = Dashboard.StartBot /\ charging = false) \/
      (e = Dashboard.ChargingMode /\ charging = true)
  end.

(** The token of the page does not change along the events. *)
Definition same_token (evs : list Dashboard.Event) : Prop :=
  forall t, ~ In (Dashboard.TokenProp t) evs.

(** Nothing is parked or armed, no strategy is listed or selected and the
    bot is not running: the page of a load that failed before the
    strategies arrived. *)
Definition idle_without_strategy (s : Dashboard.State) : Prop :=
  Dashboard.waiting s = [] /\
  Dashboard.timers s = [] /\
  Dashboard.strategies s = [] /\
  Dashboard.selectedStrategy s = None /\
  Dashboard.botRunning s = false.


(** The tenth claim as it is worded: the timer is armed when the trigger of
    a Power ON settles, whichever way. *)
Definition timer_armed_when_trigger_settles : Prop :=
  forall s i tk r,
    dash_reachable s ->
    nth_error (Dashboard.waiting s) i = Some (Dashboard.AwaitStartTrigger tk) ->
    Dashboard.fits (Dashboard.AwaitStartTrigger tk) r = true ->
    Dashboard.timers (Dashboard.step s (Dashboard.Settle i r))
    = Dashboard.timers s ++ [5000%Z].

(** No request settles along the events. *)
Definition nothing_settles (evs : list Dashboard.Event) : Prop :=
  forall i r, ~ In (Dashboard.Settle i r) evs.

(** ** Statements about the other pages *)

(** Every settlement of the list is a rejection. *)
Definition only_rejections (evs : list LoginPage.Event) : Prop :=
  forall t, ~ In (LoginPage.Settle (LoginPage.Fulfilled t)) evs.

(** The test of the delete filter: the account has another id. *)
Definition other_id (accountId : string) (a : Account) : bool :=
  negb (String.eqb (account_id a) accountId).

(** A strategy and a loaded strategies page, with integers for numbers. *)
Definition sample_row : StrategiesPage.Row Z :=
  StrategiesPage.mkRow Z "s1"
    (StrategiesPage.mkForm Z "RSI 70/30"
       (StrategiesPage.VNum Z 70%Z) (StrategiesPage.VNum Z 30%Z)
       (StrategiesPage.VNum Z 5%Z) (StrategiesPage.VNum Z 30%Z)).

Definition sample_strategies : StrategiesPage.State Z :=
  StrategiesPage.run Z (fun _ => 0%Z) (fun z => z)
    (StrategiesPage.mount Z (fun z => z) (Some "tok"))
    [StrategiesPage.Settle Z 0
       (StrategiesPage.Fulfilled Z (StrategiesPage.Rows Z [sample_row]))].

(** What the effect establishes for a theme: the storage, the single body
    class and the single stylesheet link all follow it. *)
Definition themed (s : Theme.State) : Prop :=
  In (Theme.theme s) Theme.THEMES /\
  Theme.stored s = Some (Theme.theme s) /\
  Theme.bodyClass s = [String.append "theme-" (Theme.theme s)] /\
  Theme.fontLinks s = [Theme.fontsFor (Theme.theme s)].

(** The effect ended by throwing. *)
Definition threw (o : Theme.Outcome) : bool :=
  match o with
  | Theme.Done _ => false
  | Theme.Threw _ => true
  end.

(** The token a parked function was called under. *)
Definition captured_token (k : Dashboard.Parked) : Token :=
  match k with
  | Dashboard.AwaitAccounts tk => tk
  | Dashboard.AwaitStrategies tk _ => tk
  | Dashboard.AwaitHistory tk _ _ => tk
  | Dashboard.AwaitStartTrigger tk => tk
  | Dashboard.AwaitStartHistory tk => tk
  | Dashboard.AwaitChargeTrigger tk => tk
  | Dashboard.AwaitChargeHistory tk => tk
  end.

(** * Properties *)

(** ** Scenarios *)

(** Login with a fresh token, then [/users/me] answers. *)
Example login_then_verified :
  let s := Auth.run (Auth.mount None)
             [Auth.Login "tok1"; Auth.Settle 0 (Auth.Fulfilled alice)] in
  s = Auth.mk (Some "tok1") (Some alice) false (Some "tok1") [] /\
  Auth.status s = Auth.Verified.
Proof. intros s. split; vm_compute; reflexivity. Qed.

(** Logout clears the token, the profile and the storage, sends nothing,
    and doing it twice changes nothing more. *)
Example logout_idempotent :
  let s := Auth.run (Auth.mount (Some "tok1")) [Auth.Settle 0 (Auth.Fulfilled alice)] in
  Auth.logout s = Auth.mk None None false None [] /\
  Auth.logout (Auth.logout s) = Auth.logout s.
Proof. intros s. split; vm_compute; reflexivity. Qed.

(** Power ON with a selection, the trigger and the history fetch succeed. *)
Example start_with_selection :
  let s := Dashboard.run (Dashboard.mount (Some "tok"))
             (loaded ++ [Dashboard.StartBot;
                         Dashboard.Settle 0 (Dashboard.Fulfilled Dashboard.Ack);
                         Dashboard.Settle 0 (Dashboard.Fulfilled (Dashboard.History [R1; R1]))]) in
  Dashboard.botRunning s = true /\
  Dashboard.tradingHistory s = [R1; R1] /\
  Dashboard.net s
  = [Dashboard.mkReq Dashboard.GetAccounts (Some "tok");
     Dashboard.mkReq Dashboard.GetStrategies (Some "tok");
     Dashboard.mkReq Dashboard.GetHistory (Some "tok");
     Dashboard.mkReq (Dashboard.PostSimulate "a1" "s1" "EURUSD" false) (Some "tok");
     Dashboard.mkReq Dashboard.GetHistory (Some "tok")] /\
  Dashboard.timers s = [5000%Z].
Proof. intros s. repeat split; vm_compute; reflexivity. Qed.

(** Power ON while no strategy exists: only the error is written. *)
Example start_without_strategy :
  let s0 := Dashboard.run (Dashboard.mount (Some "tok"))
              [Dashboard.Settle 0 (Dashboard.Fulfilled (Dashboard.Accounts [A1]));
               Dashboard.Settle 0 (Dashboard.Fulfilled (Dashboard.Strategies []));
               Dashboard.Settle 0 (Dashboard.Fulfilled (Dashboard.History []))] in
  let s := Dashboard.step s0 Dashboard.StartBot in
  Dashboard.selectedStrategy s0 = None /\
  Dashboard.error s = "Please select an account and strategy first." /\
  Dashboard.botRunning s = false /\
  Dashboard.net s = Dashboard.net s0.
Proof. intros s0 s. repeat split; vm_compute; reflexivity. Qed.

(** ** Session store *)

(** Once a handler has left the token cell empty and the loading flag down,
    the token effect has nothing left to do. *)
Lemma effect_to_null (before after : Auth.State) :
  Auth.token after = None ->
  Auth.loading after = false ->
  Auth.effect before after = after.
Proof.
  intros Hnone Hdown. unfold Auth.effect. rewrite Hnone.
  destruct (token_eqb (Auth.token before) None); [reflexivity |].
  unfold Auth.verifyToken_begin. rewrite Hnone.
  destruct after; simpl in *; subst; reflexivity.
Qed.

(** C2. Whatever token [T] a verification was issued for and whatever the
    reason of its failure, once the failure has been handled the session
    holds no token, its status is Invalid (in particular not Verifying: the
    loading flag is down), and the persisted token is gone. *)
Theorem verify_failure_invalidates :
  forall (s : Auth.State) (i : nat) (T : string) (why : Auth.Failure),
    nth_error (Auth.inflight s) i = Some T ->
    let s' := Auth.step s (Auth.Settle i (Auth.Rejected why)) in
    Auth.token s' = None /\
    Auth.status s' = Auth.Invalid /\
    Auth.status s' <> Auth.Verifying /\
    Auth.loading s' = false /\
    Auth.stored s' = None.
Proof.
  intros s i T why Hin s'. subst s'.
  unfold Auth.step. rewrite Hin.
  set (after := Auth.verifyToken_resume (Auth.Rejected why) (Auth.unpark i s)).
  assert (Hafter : Auth.token after = None /\ Auth.loading after = false
                   /\ Auth.stored after = None) by (repeat split).
  destruct Hafter as (Ht & Hl & Hs).
  rewrite (effect_to_null s after Ht Hl). unfold Auth.status. rewrite Ht, Hl, Hs. simpl.
  repeat split; discriminate.
Qed.

Lemma verify_failure_invalidates_witness :
  let s := Auth.mount (Some "tok1") in
  nth_error (Auth.inflight s) 0 = Some "tok1" /\
  Auth.status (Auth.step s (Auth.Settle 0 (Auth.Rejected Auth.Expired))) = Auth.Invalid.
Proof.
  split; [reflexivity |].
  apply (verify_failure_invalidates (Auth.mount (Some "tok1")) 0 "tok1" Auth.Expired).
  reflexivity.
Defined.

(** C9 (evaluation at the failing input).  A persisted token is verified,
    a second token is logged in and its verification fails: the [catch]
    block empties the token cell and the storage but, unlike [logout], not
    the user cell, so the profile outlives the token.  At the next login
    the protected pages are shown with that left-over profile until the new
    token has been verified. *)
Theorem failed_verification_keeps_user :
  let s := Auth.run (Auth.mount (Some "tok0"))
             [Auth.Settle 0 (Auth.Fulfilled alice);
              Auth.Login "tok1";
              Auth.Settle 0 (Auth.Rejected Auth.NetworkError)] in
  auth_reachable s /\
  (Auth.user s = Some alice /\
   Auth.token s = None /\
   Auth.status s = Auth.Invalid) /\
  Auth.user (Auth.logout s) = None /\
  (let s2 := Auth.step s (Auth.Login "tok2") in
   Auth.ProtectedRoute s2 = Auth.granted /\
   Auth.user s2 = Some alice /\
   Auth.inflight s2 = ["tok2"]).
Proof.
  intros s. split.
  - exists (Some "tok0"). eexists. reflexivity.
  - repeat split; vm_compute; reflexivity.
Qed.

(** ** Access gate *)

(** C4 (counterexample).  Right after [login], with the verification of the
    new token still in flight and no profile loaded, the gate already lets
    the protected view through. *)
Lemma gate_grants_while_verifying :
  let s := Auth.run (Auth.mount None) [Auth.Login "tok1"] in
  auth_reachable s /\
  Auth.inflight s = ["tok1"] /\
  Auth.user s = None /\
  Auth.status s = Auth.Verifying /\
  Auth.ProtectedRoute s = Auth.granted /\
  ~ gate_follows_status s.
Proof.
  split; [exists None; eexists; reflexivity |].
  repeat split.
  intros (Hpending & _ & _).
  assert (H : Auth.ProtectedRoute (Auth.run (Auth.mount None) [Auth.Login "tok1"])
              = Auth.pending) by (apply Hpending; right; reflexivity).
  discriminate H.
Qed.

(** C4 (amended).  The gate is decided by the loading flag and the token
    alone: pending exactly while the start-up pass is running, granted
    exactly when it is over and the token is truthy, denied exactly when it
    is over and the token is falsy.  Of the claim this keeps: Verified
    implies granted, Invalid implies denied, Unverified implies pending, and
    pending implies Unverified or Verifying. *)
Theorem gate_by_loading_and_token :
  forall s : Auth.State,
    (Auth.ProtectedRoute s = Auth.pending <-> Auth.loading s = true) /\
    (Auth.ProtectedRoute s = Auth.granted <->
       Auth.loading s = false /\ truthy (Auth.token s) = true) /\
    (Auth.ProtectedRoute s = Auth.denied <->
       Auth.loading s = false /\ truthy (Auth.token s) = false) /\
    (Auth.status s = Auth.Verified -> Auth.ProtectedRoute s = Auth.granted) /\
    (Auth.status s = Auth.Invalid -> Auth.ProtectedRoute s = Auth.denied) /\
    (Auth.status s = Auth.Unverified -> Auth.ProtectedRoute s = Auth.pending) /\
    (Auth.ProtectedRoute s = Auth.pending ->
       Auth.status s = Auth.Unverified \/ Auth.status s = Auth.Verifying).
Proof.
  intros s. unfold Auth.ProtectedRoute, Auth.status.
  destruct (Auth.loading s), (truthy (Auth.token s)), (Auth.user s); simpl;
    repeat split; intros; try tauto; try discriminate;
    repeat match goal with H : _ /\ _ |- _ => destruct H end;
    try discriminate; auto.
Qed.

(** ** Results arriving under a superseded token *)

(** C1 (counterexample).  A persisted token T1 is being verified when T2 is
    logged in; T2 is verified first.  When the verification of T1 then
    fails, the [catch] block logs the T2 session out and wipes its stored
    token; had it succeeded, its profile would have replaced the one of
    T2. *)
Lemma stale_verification_overwrites :
  let s := Auth.run (Auth.mount (Some "T1"))
             [Auth.Login "T2"; Auth.Settle 1 (Auth.Fulfilled bob)] in
  (auth_reachable s /\ stale s 0) /\
  Auth.session s = (Some "T2", Some bob, false, Some "T2") /\
  Auth.session (Auth.step s (Auth.Settle 0 (Auth.Rejected Auth.Expired)))
    = (None, Some bob, false, None) /\
  Auth.session (Auth.step s (Auth.Settle 0 (Auth.Fulfilled alice)))
    = (Some "T2", Some alice, false, Some "T2") /\
  ~ stale_results_discarded.
Proof.
  assert (Hreach : auth_reachable
            (Auth.run (Auth.mount (Some "T1"))
               [Auth.Login "T2"; Auth.Settle 1 (Auth.Fulfilled bob)]))
    by (exists (Some "T1"); eexists; reflexivity).
  assert (Hstale : stale
            (Auth.run (Auth.mount (Some "T1"))
               [Auth.Login "T2"; Auth.Settle 1 (Auth.Fulfilled bob)]) 0)
    by (exists "T1"; split; [reflexivity | discriminate]).
  repeat split; try assumption.
  intros Hclaim.
  specialize (Hclaim _ 0%nat (Auth.Rejected Auth.Expired) Hreach Hstale).
  discriminate Hclaim.
Qed.

Lemma effect_same_token (before after : Auth.State) :
  Auth.token after = Auth.token before ->
  Auth.effect before after = after.
Proof.
  intros Heq. unfold Auth.effect. rewrite Heq.
  destruct (Auth.token before) as [t |]; simpl; [| reflexivity].
  rewrite String.eqb_refl. reflexivity.
Qed.

(** C1 (amended).  No request carries a tag that is checked when it settles:
    whatever token a verification was issued under, current or superseded,
    its success stores the profile it returns and lowers the loading flag
    (token and storage stay), and its failure empties the token cell and the
    storage (the profile stays); a fulfilled history fetch of the history
    page replaces the collection, whatever token it was sent under. *)
Theorem settlement_ignores_issuing_token :
  (forall (s : Auth.State) (i : nat) (t : string),
      nth_error (Auth.inflight s) i = Some t ->
      (forall data,
          Auth.session (Auth.step s (Auth.Settle i (Auth.Fulfilled data)))
          = (Auth.token s, Some data, false, Auth.stored s)) /\
      (forall why,
          Auth.session (Auth.step s (Auth.Settle i (Auth.Rejected why)))
          = (None, Auth.user s, false, None))) /\
  (forall (h : HistoryPage.State) (i : nat) (t : Token),
      nth_error (HistoryPage.inflight h) i = Some t ->
      forall data,
        HistoryPage.tradingHistory
          (HistoryPage.step h (HistoryPage.Settle i (HistoryPage.Fulfilled data)))
        = data).
Proof.
  split.
  - intros s i t Hin. split.
    + intros data. unfold Auth.step. rewrite Hin.
      rewrite effect_same_token by reflexivity. reflexivity.
    + intros why. unfold Auth.step. rewrite Hin.
      rewrite effect_to_null by reflexivity. reflexivity.
  - intros h i t Hin data. unfold HistoryPage.step. rewrite Hin. reflexivity.
Qed.

Lemma settlement_ignores_issuing_token_witness :
  let s := Auth.run (Auth.mount (Some "T1"))
             [Auth.Login "T2"; Auth.Settle 1 (Auth.Fulfilled bob)] in
  (nth_error (Auth.inflight s) 0 = Some "T1" /\ Auth.token s = Some "T2") /\
  Auth.session (Auth.step s (Auth.Settle 0 (Auth.Fulfilled alice)))
  = (Auth.token s, Some alice, false, Auth.stored s).
Proof.
  intros s.
  assert (Hin : nth_error (Auth.inflight s) 0 = Some "T1")
    by (vm_compute; reflexivity).
  split; [split; [exact Hin | vm_compute; reflexivity] |].
  exact (proj1 (proj1 settlement_ignores_issuing_token s 0%nat "T1" Hin) alice).
Defined.

(** ** Dashboard: precondition of the two triggers *)

(** C5. Invoked while the account or the strategy selection is empty,
    [handleStartBot] and [handleChargingMode] only write the dashboard error:
    every other cell, [botRunning] among them, is as before, nothing is
    sent, nothing is parked and no timer is armed. *)
Theorem start_rejected_without_selection :
  forall s : Dashboard.State,
    Dashboard.selectedAccount s = None \/ Dashboard.selectedStrategy s = None ->
    Dashboard.handleStartBot s = Dashboard.setError Dashboard.select_first s /\
    Dashboard.handleChargingMode s = Dashboard.setError Dashboard.select_first s /\
    forall s',
      s' = Dashboard.handleStartBot s \/ s' = Dashboard.handleChargingMode s ->
      Dashboard.botRunning s' = Dashboard.botRunning s /\
      (Dashboard.botRunning s = false -> Dashboard.botRunning s' = false) /\
      Dashboard.error s' = Dashboard.select_first /\
      Dashboard.net s' = Dashboard.net s /\
      Dashboard.waiting s' = Dashboard.waiting s /\
      Dashboard.timers s' = Dashboard.timers s.
Proof.
  intros s Hnone.
  assert (Hstart : Dashboard.handleStartBot s
                   = Dashboard.setError Dashboard.select_first s).
  { unfold Dashboard.handleStartBot.
    destruct Hnone as [H | H]; rewrite H; [| destruct (Dashboard.selectedAccount s)];
      reflexivity. }
  assert (Hcharge : Dashboard.handleChargingMode s
                    = Dashboard.setError Dashboard.select_first s).
  { unfold Dashboard.handleChargingMode.
    destruct Hnone as [H | H]; rewrite H; [| destruct (Dashboard.selectedAccount s)];
      reflexivity. }
  split; [exact Hstart | split; [exact Hcharge |]].
  intros s' [-> | ->]; [rewrite Hstart | rewrite Hcharge]; simpl; auto 10.
Qed.

Lemma start_rejected_without_selection_witness :
  let s := Dashboard.setSelectedAccount (Some A1) (Dashboard.initial (Some "tok")) in
  Dashboard.selectedStrategy s = None /\
  Dashboard.handleStartBot s = Dashboard.setError Dashboard.select_first s.
Proof.
  split; [reflexivity |].
  apply (start_rejected_without_selection
           (Dashboard.setSelectedAccount (Some A1) (Dashboard.initial (Some "tok")))).
  right. reflexivity.
Defined.

(** ** Dashboard: default selections *)

(** C7 (counterexample).  The user picks the second account; the
    default-selection step, run on a reply with the same two accounts, puts
    the first one back.  The same happens along a run of the page in which
    the token effect has started [fetchData] a second time. *)
Lemma defaults_overwrite_selection :
  let s := Dashboard.run (Dashboard.mount (Some "tok"))
             (loaded ++ [Dashboard.SelectAccount "a2"]) in
  Dashboard.selectedAccount s = Some A2 /\
  Dashboard.selectedAccount (Dashboard.selectDefaults [A1; A2] [S1; S2] s) = Some A1 /\
  (let s2 := Dashboard.run (Dashboard.mount (Some "T1"))
               [Dashboard.TokenProp (Some "T2");
                Dashboard.Settle 0 (Dashboard.Fulfilled (Dashboard.Accounts [A1; A2]));
                Dashboard.Settle 1 (Dashboard.Fulfilled (Dashboard.Strategies [S1; S2]));
                Dashboard.Settle 1 (Dashboard.Fulfilled (Dashboard.History [R1]));
                Dashboard.SelectAccount "a2";
                Dashboard.Settle 0 (Dashboard.Fulfilled (Dashboard.Accounts [A1; A2]));
                Dashboard.Settle 0 (Dashboard.Fulfilled (Dashboard.Strategies [S1; S2]))] in
   Dashboard.selectedAccount s2 = Some A2 /\
   Dashboard.selectedAccount
     (Dashboard.step s2 (Dashboard.Settle 0 (Dashboard.Fulfilled (Dashboard.History [R1]))))
   = Some A1) /\
  ~ defaults_keep_selection.
Proof.
  repeat split.
  intros Hclaim.
  destruct (Hclaim [A1; A2] [S1; S2]
              (Dashboard.run (Dashboard.mount (Some "tok"))
                 (loaded ++ [Dashboard.SelectAccount "a2"]))) as [Hacc _].
  assert (H : Some A1 = Some A2) by (apply Hacc; discriminate).
  discriminate H.
Qed.

(** C7 (amended).  The default-selection step looks at the loaded lists, not
    at the selection: a non-empty account list selects its first element
    whatever was selected before, an empty one leaves the account selection
    as it is; likewise for strategies.  Nothing else is written. *)
Theorem defaults_follow_loaded_lists :
  forall (accs : list Account) (strats : list Strategy) (s : Dashboard.State),
    let s' := Dashboard.selectDefaults accs strats s in
    Dashboard.selectedAccount s'
    = match accs with
      | a :: _ => Some a
      | [] => Dashboard.selectedAccount s
      end /\
    Dashboard.selectedStrategy s'
    = match strats with
      | st :: _ => Some st
      | [] => Dashboard.selectedStrategy s
      end /\
    s' = Dashboard.setSelectedStrategy (Dashboard.selectedStrategy s')
           (Dashboard.setSelectedAccount (Dashboard.selectedAccount s') s).
Proof.
  intros accs strats s. destruct s, accs, strats; repeat split.
Qed.

(** ** Dashboard: the three loads *)

(** C6 (counterexample).  When the accounts load is rejected, [fetchData]
    is over: the strategies and the history are never asked for. *)
Lemma accounts_failure_blocks_other_loads :
  let s := Dashboard.run (Dashboard.mount (Some "tok"))
             [Dashboard.Settle 0 Dashboard.Rejected] in
  Dashboard.waiting s = [] /\
  Dashboard.net s = [Dashboard.mkReq Dashboard.GetAccounts (Some "tok")] /\
  requested is_strategies s = false /\
  requested Dashboard.is_history s = false /\
  ~ loads_independent.
Proof.
  repeat split.
  intros Hclaim.
  destruct (Hclaim (Some "tok") [Dashboard.Settle 0 Dashboard.Rejected] eq_refl)
    as [H _].
  discriminate H.
Qed.

Lemma step_sends_with_cause (s : Dashboard.State) (e : Dashboard.Event) :
  Dashboard.net (Dashboard.step s e) = Dashboard.net s \/
  exists q, Dashboard.net (Dashboard.step s e) = Dashboard.net s ++ [q] /\
            request_cause s e q.
Proof.
  unfold Dashboard.step.
  destruct (Dashboard.offered s e); [| left; reflexivity].
  destruct e; simpl; try (left; reflexivity).
  - destruct (token_eqb (Dashboard.token s) t); [left; reflexivity |].
    right. eexists. split; reflexivity.
  - unfold Dashboard.handleStartBot.
    destruct (Dashboard.selectedAccount s), (Dashboard.selectedStrategy s);
      try (left; reflexivity).
    right. eexists. split; [reflexivity |]. left. split; reflexivity.
  - unfold Dashboard.handleChargingMode.
    destruct (Dashboard.selectedAccount s), (Dashboard.selectedStrategy s);
      try (left; reflexivity).
    right. eexists. split; [reflexivity |]. right. split; reflexivity.
  - destruct (nth_error (Dashboard.waiting s) i) as [k |] eqn:Hin; [| left; reflexivity].
    destruct (Dashboard.fits k r); [| left; reflexivity].
    destruct k, r as [[l | l | l |] |]; simpl; try (left; reflexivity).
    + right. eexists. split; [reflexivity |]. exists i, l. split; [reflexivity | exact Hin].
    + right. eexists. split; [reflexivity |]. exists i. left.
      exists l, accs. split; [reflexivity | exact Hin].
    + destruct accs, strats; left; reflexivity.
    + right. eexists. split; [reflexivity |]. exists i. right.
      split; [reflexivity |]. eexists. split; [exact Hin | reflexivity].
    + right. eexists. split; [reflexivity |]. exists i. right.
      split; [reflexivity |]. eexists. split; [exact Hin | reflexivity].
  - destruct (nth_error (Dashboard.timers s) i); left; reflexivity.
Qed.

Lemma idle_step (s : Dashboard.State) (e : Dashboard.Event) :
  idle_without_strategy s ->
  (forall t, e <> Dashboard.TokenProp t) ->
  idle_without_strategy (Dashboard.step s e) /\
  Dashboard.net (Dashboard.step s e) = Dashboard.net s /\
  Dashboard.accounts (Dashboard.step s e) = Dashboard.accounts s /\
  Dashboard.tradingHistory (Dashboard.step s e) = Dashboard.tradingHistory s.
Proof.
  intros (Hw & Ht & Hs & Hsel & Hrun) Htok.
  assert (Hidle : idle_without_strategy s) by (repeat split; simpl; auto).
  unfold Dashboard.step.
  destruct (Dashboard.offered s e); [| repeat split; simpl; auto].
  destruct e; simpl.
  - exfalso. apply (Htok t). reflexivity.
  - repeat split; simpl; auto.
  - rewrite Hs. simpl. repeat split; simpl; auto.
  - repeat split; simpl; auto.
  - unfold Dashboard.handleStartBot. rewrite Hsel.
    destruct (Dashboard.selectedAccount s); repeat split; simpl; auto.
  - unfold Dashboard.handleChargingMode. rewrite Hsel.
    destruct (Dashboard.selectedAccount s); repeat split; simpl; auto.
  - repeat split; simpl; auto.
  - rewrite Hw. destruct i; repeat split; simpl; auto.
  - rewrite Ht. destruct i; repeat split; simpl; auto.
Qed.

Lemma idle_run (evs : list Dashboard.Event) :
  forall s : Dashboard.State,
    idle_without_strategy s ->
    same_token evs ->
    idle_without_strategy (Dashboard.run s evs) /\
    Dashboard.net (Dashboard.run s evs) = Dashboard.net s /\
    Dashboard.accounts (Dashboard.run s evs) = Dashboard.accounts s /\
    Dashboard.tradingHistory (Dashboard.run s evs) = Dashboard.tradingHistory s.
Proof.
  induction evs as [| e evs IH]; intros s Hidle Hsame; simpl.
  - repeat split; try reflexivity; apply Hidle.
  - destruct (idle_step s e Hidle) as (Hidle' & Hnet & Haccs & Hhist).
    { intros t ->. apply (Hsame t). left. reflexivity. }
    destruct (IH (Dashboard.step s e) Hidle') as (Hfin & Hnet' & Haccs' & Hhist').
    { intros t H. apply (Hsame t). right. exact H. }
    rewrite Hnet', Haccs', Hhist'.
    split; [exact Hfin | repeat split; assumption].
Qed.

Lemma load_settlement :
  forall (s : Dashboard.State) (i : nat) (k : Dashboard.Parked),
    nth_error (Dashboard.waiting s) i = Some k ->
    let rest := remove_nth i (Dashboard.waiting s) in
    let failed := Dashboard.step s (Dashboard.Settle i Dashboard.Rejected) in
    match k with
    | Dashboard.AwaitAccounts tk =>
        load_failed s i failed /\
        forall l,
          let s' := Dashboard.step s
                      (Dashboard.Settle i (Dashboard.Fulfilled (Dashboard.Accounts l))) in
          Dashboard.accounts s' = l /\
          Dashboard.net s' = Dashboard.net s ++ [Dashboard.mkReq Dashboard.GetStrategies tk] /\
          Dashboard.waiting s' = rest ++ [Dashboard.AwaitStrategies tk l]
    | Dashboard.AwaitStrategies tk accs =>
        load_failed s i failed /\
        forall l,
          let s' := Dashboard.step s
                      (Dashboard.Settle i (Dashboard.Fulfilled (Dashboard.Strategies l))) in
          Dashboard.accounts s' = Dashboard.accounts s /\
          Dashboard.strategies s' = l /\
          Dashboard.net s' = Dashboard.net s ++ [Dashboard.mkReq Dashboard.GetHistory tk] /\
          Dashboard.waiting s' = rest ++ [Dashboard.AwaitHistory tk accs l]
    | Dashboard.AwaitHistory tk accs strats =>
        load_failed s i failed /\
        forall h,
          let s' := Dashboard.step s
                      (Dashboard.Settle i (Dashboard.Fulfilled (Dashboard.History h))) in
          Dashboard.accounts s' = Dashboard.accounts s /\
          Dashboard.strategies s' = Dashboard.strategies s /\
          Dashboard.tradingHistory s' = h /\
          Dashboard.net s' = Dashboard.net s /\
          Dashboard.waiting s' = rest
    | _ => True
    end.
Proof.
  intros s i k Hin rest failed. subst rest failed.
  unfold Dashboard.step, Dashboard.offered, Dashboard.handle. rewrite Hin.
  destruct k; try exact I;
    (split; [unfold load_failed; repeat split |]); intros; simpl.
  - repeat split.
  - repeat split.
  - destruct accs, strats; repeat split.
Qed.

Lemma rejected_load_ends_requests :
  forall (t : Token) (evs : list Dashboard.Event),
      same_token evs ->
      (let s1 := Dashboard.run (Dashboard.mount t)
                   (Dashboard.Settle 0 Dashboard.Rejected :: evs) in
       Dashboard.net s1 = [Dashboard.mkReq Dashboard.GetAccounts t] /\
       Dashboard.accounts s1 = [] /\
       Dashboard.strategies s1 = [] /\
       Dashboard.tradingHistory s1 = []) /\
      (forall l,
          let s2 := Dashboard.run (Dashboard.mount t)
                      (Dashboard.Settle 0 (Dashboard.Fulfilled (Dashboard.Accounts l))
                       :: Dashboard.Settle 0 Dashboard.Rejected :: evs) in
          Dashboard.net s2 = [Dashboard.mkReq Dashboard.GetAccounts t;
                              Dashboard.mkReq Dashboard.GetStrategies t] /\
          Dashboard.accounts s2 = l /\
          Dashboard.strategies s2 = [] /\
          Dashboard.tradingHistory s2 = []).
Proof.
  intros t evs Hsame. split.
  - intros s1. subst s1.
    change (Dashboard.run (Dashboard.mount t) (Dashboard.Settle 0 Dashboard.Rejected :: evs))
      with (Dashboard.run
              (Dashboard.step (Dashboard.mount t) (Dashboard.Settle 0 Dashboard.Rejected))
              evs).
    assert (Hidle : idle_without_strategy
                      (Dashboard.step (Dashboard.mount t)
                         (Dashboard.Settle 0 Dashboard.Rejected)))
      by (unfold idle_without_strategy; vm_compute; repeat split).
    destruct (idle_run evs _ Hidle Hsame) as ((_ & _ & Hstr & _) & Hnet & Haccs & Hhist).
    rewrite Hnet, Haccs, Hhist, Hstr. vm_compute. repeat split.
  - intros l s2. subst s2.
    change (Dashboard.run (Dashboard.mount t)
              (Dashboard.Settle 0 (Dashboard.Fulfilled (Dashboard.Accounts l))
               :: Dashboard.Settle 0 Dashboard.Rejected :: evs))
      with (Dashboard.run
              (Dashboard.step
                 (Dashboard.step (Dashboard.mount t)
                    (Dashboard.Settle 0 (Dashboard.Fulfilled (Dashboard.Accounts l))))
                 (Dashboard.Settle 0 Dashboard.Rejected))
              evs).
    assert (Hidle : idle_without_strategy
                      (Dashboard.step
                         (Dashboard.step (Dashboard.mount t)
                            (Dashboard.Settle 0 (Dashboard.Fulfilled (Dashboard.Accounts l))))
                         (Dashboard.Settle 0 Dashboard.Rejected)))
      by (unfold idle_without_strategy; vm_compute; repeat split).
    destruct (idle_run evs _ Hidle Hsame) as ((_ & _ & Hstr & _) & Hnet & Haccs & Hhist).
    rewrite Hnet, Haccs, Hhist, Hstr. vm_compute. repeat split.
Qed.

(** C6 (amended).  [fetchData] sends the three loads one after the other,
    each only after the one before it was fulfilled: starting it sends the
    accounts load alone; in any state a strategies load leaves only when an
    accounts load is fulfilled and a history load only when a strategies
    load (or a trigger) is fulfilled.  A fulfilled load replaces its
    collection and sends the next one under the same token.  A rejected load
    ends [fetchData]: its own collection and those of the loads after it are
    left as they were (the ones before it stay replaced), the selection is
    not touched and the error is written; and the loads after it are never
    sent: once the accounts load, or the strategies load, of the mount is
    rejected, nothing more leaves the page whatever the user does, as long
    as the token stays. *)
Theorem loads_are_sequential :
  (forall (s : Dashboard.State) (i : nat) (k : Dashboard.Parked),
    nth_error (Dashboard.waiting s) i = Some k ->
    let rest := remove_nth i (Dashboard.waiting s) in
    let failed := Dashboard.step s (Dashboard.Settle i Dashboard.Rejected) in
    match k with
    | Dashboard.AwaitAccounts tk =>
        load_failed s i failed /\
        forall l,
          let s' := Dashboard.step s
                      (Dashboard.Settle i (Dashboard.Fulfilled (Dashboard.Accounts l))) in
          Dashboard.accounts s' = l /\
          Dashboard.net s' = Dashboard.net s ++ [Dashboard.mkReq Dashboard.GetStrategies tk] /\
          Dashboard.waiting s' = rest ++ [Dashboard.AwaitStrategies tk l]
    | Dashboard.AwaitStrategies tk accs =>
        load_failed s i failed /\
        forall l,
          let s' := Dashboard.step s
                      (Dashboard.Settle i (Dashboard.Fulfilled (Dashboard.Strategies l))) in
          Dashboard.accounts s' = Dashboard.accounts s /\
          Dashboard.strategies s' = l /\
          Dashboard.net s' = Dashboard.net s ++ [Dashboard.mkReq Dashboard.GetHistory tk] /\
          Dashboard.waiting s' = rest ++ [Dashboard.AwaitHistory tk accs l]
    | Dashboard.AwaitHistory tk accs strats =>
        load_failed s i failed /\
        forall h,
          let s' := Dashboard.step s
                      (Dashboard.Settle i (Dashboard.Fulfilled (Dashboard.History h))) in
          Dashboard.accounts s' = Dashboard.accounts s /\
          Dashboard.strategies s' = Dashboard.strategies s /\
          Dashboard.tradingHistory s' = h /\
          Dashboard.net s' = Dashboard.net s /\
          Dashboard.waiting s' = rest
    | _ => True
    end) /\
  (forall s : Dashboard.State,
      Dashboard.net (Dashboard.fetchData_begin s)
      = Dashboard.net s ++ [Dashboard.mkReq Dashboard.GetAccounts (Dashboard.token s)] /\
      Dashboard.waiting (Dashboard.fetchData_begin s)
      = Dashboard.waiting s ++ [Dashboard.AwaitAccounts (Dashboard.token s)]) /\
  (forall (s : Dashboard.State) (e : Dashboard.Event),
      Dashboard.net (Dashboard.step s e) = Dashboard.net s \/
      exists q, Dashboard.net (Dashboard.step s e) = Dashboard.net s ++ [q] /\
                request_cause s e q) /\
  (forall (t : Token) (evs : list Dashboard.Event),
      same_token evs ->
      (let s1 := Dashboard.run (Dashboard.mount t)
                   (Dashboard.Settle 0 Dashboard.Rejected :: evs) in
       Dashboard.net s1 = [Dashboard.mkReq Dashboard.GetAccounts t] /\
       Dashboard.accounts s1 = [] /\
       Dashboard.strategies s1 = [] /\
       Dashboard.tradingHistory s1 = []) /\
      (forall l,
          let s2 := Dashboard.run (Dashboard.mount t)
                      (Dashboard.Settle 0 (Dashboard.Fulfilled (Dashboard.Accounts l))
                       :: Dashboard.Settle 0 Dashboard.Rejected :: evs) in
          Dashboard.net s2 = [Dashboard.mkReq Dashboard.GetAccounts t;
                              Dashboard.mkReq Dashboard.GetStrategies t] /\
          Dashboard.accounts s2 = l /\
          Dashboard.strategies s2 = [] /\
          Dashboard.tradingHistory s2 = [])).
Proof.
  split; [exact load_settlement | split; [| split]].
  - intros s. split; reflexivity.
  - exact step_sends_with_cause.
  - exact rejected_load_ends_requests.
Qed.

Lemma loads_are_sequential_witness :
  let s := Dashboard.run (Dashboard.mount (Some "tok"))
             [Dashboard.Settle 0 (Dashboard.Fulfilled (Dashboard.Accounts [A1]))] in
  let evs := [Dashboard.SelectAccount "a1"; Dashboard.StartBot; Dashboard.Fire 0] in
  (nth_error (Dashboard.waiting s) 0 = Some (Dashboard.AwaitStrategies (Some "tok") [A1]) /\
   same_token evs) /\
  load_failed s 0 (Dashboard.step s (Dashboard.Settle 0 Dashboard.Rejected)) /\
  Dashboard.net
    (Dashboard.run (Dashboard.mount (Some "tok"))
       (Dashboard.Settle 0 Dashboard.Rejected :: evs))
  = [Dashboard.mkReq Dashboard.GetAccounts (Some "tok")].
Proof.
  intros s evs.
  assert (Hin : nth_error (Dashboard.waiting s) 0
                = Some (Dashboard.AwaitStrategies (Some "tok") [A1]))
    by (vm_compute; reflexivity).
  assert (Hsame : same_token evs).
  { intros t H. simpl in H.
    repeat (destruct H as [H | H]; [discriminate H |]). exact H. }
  split; [split; assumption |]. split.
  - exact (proj1 (proj1 loads_are_sequential s 0%nat _ Hin)).
  - exact (proj1 (proj1 (proj2 (proj2 (proj2 loads_are_sequential))
                           (Some "tok") evs Hsame))).
Defined.

(** ** Dashboard: what lowers [botRunning] *)

(** No continuation of any handler writes [botRunning]. *)
Lemma resume_keeps_botRunning (k : Dashboard.Parked) (r : Dashboard.Reply)
    (s : Dashboard.State) :
  Dashboard.botRunning (Dashboard.resume k r s) = Dashboard.botRunning s.
Proof.
  destruct k, r as [[l | l | l |] |]; simpl; try reflexivity.
  destruct accs, strats; reflexivity.
Qed.

(** Only Power OFF and a timer lower [botRunning]. *)
Lemma step_keeps_running (s : Dashboard.State) (e : Dashboard.Event) :
  Dashboard.botRunning s = true ->
  e <> Dashboard.StopBot ->
  (forall j, e <> Dashboard.Fire j) ->
  Dashboard.botRunning (Dashboard.step s e) = true.
Proof.
  intros Hrun Hstop Hfire. unfold Dashboard.step.
  destruct (Dashboard.offered s e); [| exact Hrun].
  destruct e; simpl; try assumption.
  - destruct (token_eqb (Dashboard.token s) t); assumption.
  - unfold Dashboard.handleStartBot.
    destruct (Dashboard.selectedAccount s), (Dashboard.selectedStrategy s);
      simpl; auto.
  - unfold Dashboard.handleChargingMode.
    destruct (Dashboard.selectedAccount s), (Dashboard.selectedStrategy s);
      simpl; auto.
  - contradiction.
  - destruct (nth_error (Dashboard.waiting s) i) as [k |]; [| assumption].
    destruct (Dashboard.fits k r); [| assumption].
    rewrite resume_keeps_botRunning. assumption.
  - exfalso. apply (Hfire i). reflexivity.
Qed.

Lemma run_lowered_by_stop_or_timer (evs : list Dashboard.Event) :
  forall s : Dashboard.State,
    Dashboard.botRunning s = true ->
    Dashboard.botRunning (Dashboard.run s evs) = false ->
    In Dashboard.StopBot evs \/ exists j, In (Dashboard.Fire j) evs.
Proof.
  induction evs as [| e evs IH]; intros s Hrun Hoff; simpl in Hoff.
  - congruence.
  - assert (Hnext : Dashboard.botRunning (Dashboard.step s e) = true ->
                    In Dashboard.StopBot (e :: evs) \/
                    exists j, In (Dashboard.Fire j) (e :: evs)).
    { intros Hkept. destruct (IH _ Hkept Hoff) as [H | [j H]];
        [left; right; exact H | right; exists j; right; exact H]. }
    destruct e;
      try (apply Hnext; apply step_keeps_running;
           [exact Hrun | discriminate | discriminate]).
    + left. left. reflexivity.
    + right. exists i. left. reflexivity.
Qed.

(** ** Dashboard: settlement of a trigger *)





(** ** Dashboard: the reset timer *)

Lemma nth_error_last {A : Type} (l : list A) (x : A) :
  nth_error (l ++ [x]) (List.length l) = Some x.
Proof. induction l as [| h t IH]; simpl; [reflexivity | exact IH]. Qed.

Lemma remove_nth_last {A : Type} (l : list A) (x : A) :
  remove_nth (List.length l) (l ++ [x]) = l.
Proof. induction l as [| h t IH]; simpl; [reflexivity | rewrite IH; reflexivity]. Qed.

Ltac settle_last :=
  unfold Dashboard.step, Dashboard.offered, Dashboard.handle; simpl;
  rewrite ?nth_error_last; simpl; rewrite ?remove_nth_last; simpl.

(** C10 (counterexample).  Power ON with a selection, and the trigger is
    fulfilled: the handler goes on to its history fetch and no timer is
    armed yet; while that fetch is pending nothing lowers [botRunning]. *)
Lemma fulfilled_trigger_arms_no_timer :
  let s := Dashboard.run (Dashboard.mount (Some "tok")) (loaded ++ [Dashboard.StartBot]) in
  let s1 := Dashboard.step s (Dashboard.Settle 0 (Dashboard.Fulfilled Dashboard.Ack)) in
  (dash_reachable s /\
   Dashboard.waiting s = [Dashboard.AwaitStartTrigger (Some "tok")] /\
   Dashboard.timers s = []) /\
  (Dashboard.timers s1 = [] /\
   Dashboard.waiting s1 = [Dashboard.AwaitStartHistory (Some "tok")] /\
   Dashboard.botRunning s1 = true) /\
  Dashboard.botRunning
    (Dashboard.run s1 [Dashboard.Fire 0; Dashboard.SelectAccount "a2";
                       Dashboard.Fire 0]) = true /\
  ~ timer_armed_when_trigger_settles.
Proof.
  intros s s1.
  assert (Hreach : dash_reachable s) by (exists (Some "tok"); eexists; reflexivity).
  assert (Hin : nth_error (Dashboard.waiting s) 0
                = Some (Dashboard.AwaitStartTrigger (Some "tok")))
    by (vm_compute; reflexivity).
  assert (Hnone : Dashboard.timers s1 = []) by (vm_compute; reflexivity).
  repeat split; try assumption; try (vm_compute; reflexivity).
  intros Hclaim.
  specialize (Hclaim s 0%nat (Some "tok") (Dashboard.Fulfilled Dashboard.Ack)
                Hreach Hin eq_refl).
  fold s1 in Hclaim. rewrite Hnone in Hclaim.
  destruct (Dashboard.timers s); discriminate Hclaim.
Qed.

Lemma unarmed_step (s : Dashboard.State) (e : Dashboard.Event) :
  Dashboard.timers s = [] ->
  Dashboard.botRunning s = true ->
  (forall i r, e <> Dashboard.Settle i r) ->
  e <> Dashboard.StopBot ->
  Dashboard.botRunning (Dashboard.step s e) = true /\
  Dashboard.timers (Dashboard.step s e) = [].
Proof.
  intros Htim Hrun Hsettle Hstop. unfold Dashboard.step.
  destruct (Dashboard.offered s e); [| split; assumption].
  destruct e; simpl; try (split; assumption).
  - destruct (token_eqb (Dashboard.token s) t); split; assumption.
  - unfold Dashboard.handleStartBot.
    destruct (Dashboard.selectedAccount s), (Dashboard.selectedStrategy s);
      simpl; split; auto.
  - unfold Dashboard.handleChargingMode.
    destruct (Dashboard.selectedAccount s), (Dashboard.selectedStrategy s);
      simpl; split; auto.
  - contradiction.
  - exfalso. apply (Hsettle i r). reflexivity.
  - rewrite Htim. destruct i; split; assumption.
Qed.

Lemma unarmed_run (evs : list Dashboard.Event) :
  forall s : Dashboard.State,
    Dashboard.timers s = [] ->
    Dashboard.botRunning s = true ->
    nothing_settles evs ->
    ~ In Dashboard.StopBot evs ->
    Dashboard.botRunning (Dashboard.run s evs) = true /\
    Dashboard.timers (Dashboard.run s evs) = [].
Proof.
  induction evs as [| e evs IH]; intros s Htim Hrun Hsettle Hstop; simpl.
  - split; assumption.
  - destruct (unarmed_step s e Htim Hrun) as [Hrun' Htim'].
    + intros i r ->. apply (Hsettle i r). left. reflexivity.
    + intros ->. apply Hstop. left. reflexivity.
    + apply IH; try assumption.
      * intros i r H. apply (Hsettle i r). right. exact H.
      * intros H. apply Hstop. right. exact H.
Qed.

(** C10 (amended).  A Power ON that passes the selection test raises
    [botRunning] at once.  The timer of 5000 ms is armed by the [finally]
    block, that is when the last request the handler awaits settles: at the
    settlement of the trigger only when the trigger is rejected, and after a
    fulfilled trigger only when the history fetch that follows settles,
    either way.  Exactly one timer is armed per run, and when it goes off
    [botRunning] is lowered again without any action of the user, so a run
    whose requests settle ends by itself; as long as no timer is armed and
    nothing settles, only Power OFF lowers [botRunning].  Charging UP raises
    [botRunning] too, but none of its paths arms a timer: in any state, a
    settlement arms a timer exactly when it ends a Power ON run. *)
Theorem start_arms_reset_timer :
  (forall (s : Dashboard.State) (a : Account) (st : Strategy),
      Dashboard.selectedAccount s = Some a ->
      Dashboard.selectedStrategy s = Some st ->
      let n := List.length (Dashboard.waiting s) in
      let m := List.length (Dashboard.timers s) in
      (Dashboard.botRunning (Dashboard.handleStartBot s) = true /\
       Dashboard.timers (Dashboard.handleStartBot s) = Dashboard.timers s) /\
      (forall o : Outcome,
          let s1 := Dashboard.run (Dashboard.handleStartBot s) (settlements n o) in
          Dashboard.botRunning s1 = true /\
          Dashboard.timers s1 = Dashboard.timers s ++ [5000%Z] /\
          Dashboard.waiting s1 = Dashboard.waiting s /\
          Dashboard.botRunning (Dashboard.step s1 (Dashboard.Fire m)) = false /\
          Dashboard.timers (Dashboard.step s1 (Dashboard.Fire m)) = Dashboard.timers s) /\
      (let pending := Dashboard.step (Dashboard.handleStartBot s)
                        (Dashboard.Settle n (Dashboard.Fulfilled Dashboard.Ack)) in
       Dashboard.timers pending = Dashboard.timers s /\
       Dashboard.waiting pending
       = Dashboard.waiting s ++ [Dashboard.AwaitStartHistory (Dashboard.token s)] /\
       Dashboard.botRunning pending = true) /\
      (Dashboard.botRunning (Dashboard.handleChargingMode s) = true /\
       Dashboard.timers (Dashboard.handleChargingMode s) = Dashboard.timers s /\
       forall o : Outcome,
         let c1 := Dashboard.run (Dashboard.handleChargingMode s) (settlements n o) in
         Dashboard.botRunning c1 = true /\
         Dashboard.timers c1 = Dashboard.timers s /\
         Dashboard.waiting c1 = Dashboard.waiting s)) /\
  (forall (s : Dashboard.State) (i : nat) (k : Dashboard.Parked) (r : Dashboard.Reply),
      nth_error (Dashboard.waiting s) i = Some k ->
      Dashboard.fits k r = true ->
      Dashboard.timers (Dashboard.step s (Dashboard.Settle i r))
      = Dashboard.timers s ++ (if ends_start_run k r then [5000%Z] else [])) /\
  (forall (s : Dashboard.State) (j : nat) (ms : Z),
      nth_error (Dashboard.timers s) j = Some ms ->
      Dashboard.botRunning (Dashboard.step s (Dashboard.Fire j)) = false /\
      Dashboard.timers (Dashboard.step s (Dashboard.Fire j))
      = remove_nth j (Dashboard.timers s)) /\
  (forall (s : Dashboard.State) (evs : list Dashboard.Event),
      Dashboard.timers s = [] ->
      Dashboard.botRunning s = true ->
      nothing_settles evs ->
      ~ In Dashboard.StopBot evs ->
      Dashboard.botRunning (Dashboard.run s evs) = true /\
      Dashboard.timers (Dashboard.run s evs) = []).
Proof.
  split; [| split; [| split]].
  - intros s a st Hacc Hstr n m. subst n m.
    unfold Dashboard.handleStartBot, Dashboard.handleChargingMode.
    rewrite Hacc, Hstr. clear Hacc Hstr.
    destruct s as [tk accs strats sa ss ld err sym hist running net waiting timers].
    simpl. split; [split; reflexivity |]. split; [| split].
    + intros o. unfold Dashboard.run.
      destruct o; simpl; repeat settle_last; repeat split.
    + settle_last. repeat split.
    + split; [reflexivity |]. split; [reflexivity |].
      intros o. unfold Dashboard.run.
      destruct o; simpl; repeat settle_last; repeat split.
  - intros s i k r Hin Hfits.
    unfold Dashboard.step, Dashboard.offered, Dashboard.handle.
    rewrite Hin, Hfits.
    destruct k, r as [[l | l | l |] |]; try discriminate Hfits; simpl;
      rewrite ?app_nil_r; try reflexivity.
    destruct accs, strats; simpl; rewrite ?app_nil_r; reflexivity.
  - intros s j ms Hin.
    unfold Dashboard.step, Dashboard.offered, Dashboard.handle.
    rewrite Hin. split; reflexivity.
  - intros s evs. apply unarmed_run.
Qed.

Lemma start_arms_reset_timer_witness :
  let s := Dashboard.run (Dashboard.mount (Some "tok")) loaded in
  let pending := Dashboard.step (Dashboard.handleStartBot s)
                   (Dashboard.Settle (List.length (Dashboard.waiting s))
                      (Dashboard.Fulfilled Dashboard.Ack)) in
  let evs := [Dashboard.Fire 0; Dashboard.DismissError] in
  (Dashboard.selectedAccount s = Some A1 /\ Dashboard.selectedStrategy s = Some S1 /\
   Dashboard.timers pending = [] /\ Dashboard.botRunning pending = true /\
   nothing_settles evs /\ ~ In Dashboard.StopBot evs) /\
  (Dashboard.botRunning (Dashboard.handleStartBot s) = true /\
   Dashboard.timers (Dashboard.handleStartBot s) = Dashboard.timers s) /\
  Dashboard.botRunning (Dashboard.run pending evs) = true.
Proof.
  intros s pending evs.
  assert (Hacc : Dashboard.selectedAccount s = Some A1) by (vm_compute; reflexivity).
  assert (Hstr : Dashboard.selectedStrategy s = Some S1) by (vm_compute; reflexivity).
  assert (Htim : Dashboard.timers pending = []) by (vm_compute; reflexivity).
  assert (Hrun : Dashboard.botRunning pending = true) by (vm_compute; reflexivity).
  assert (Hsettle : nothing_settles evs).
  { intros i r H. simpl in H.
    repeat (destruct H as [H | H]; [discriminate H |]). exact H. }
  assert (Hstop : ~ In Dashboard.StopBot evs).
  { intros H. simpl in H.
    repeat (destruct H as [H | H]; [discriminate H |]). exact H. }
  split; [repeat split; assumption |]. split.
  - exact (proj1 (proj1 start_arms_reset_timer s A1 S1 Hacc Hstr)).
  - exact (proj1 (proj2 (proj2 (proj2 start_arms_reset_timer))
                    pending evs Htim Hrun Hsettle Hstop)).
Defined.

(** ** Dashboard: leaving the charging mode *)

(** C8 (counterexample).  A Power ON run fails and arms its timer; the user
    presses Power OFF and then Charging UP before the five seconds are over.
    The charging trigger fails, and then the timer of the earlier run goes
    off: [botRunning] is lowered although Power OFF was not pressed again. *)
Lemma stale_timer_ends_charging :
  let s := Dashboard.run (Dashboard.mount (Some "tok"))
             (loaded ++ [Dashboard.StartBot; Dashboard.Settle 0 Dashboard.Rejected;
                         Dashboard.StopBot; Dashboard.ChargingMode]) in
  let s1 := Dashboard.step s (Dashboard.Settle 0 Dashboard.Rejected) in
  (dash_reachable s /\
   Dashboard.waiting s = [Dashboard.AwaitChargeTrigger (Some "tok")] /\
   Dashboard.timers s = [5000%Z] /\
   Dashboard.botRunning s = true) /\
  (Dashboard.botRunning s1 = true /\ Dashboard.error s1 = Dashboard.charging_failed) /\
  Dashboard.botRunning (Dashboard.run s1 [Dashboard.Fire 0]) = false /\
  ~ charging_holds_until_stop.
Proof.
  intros s s1.
  assert (Hreach : dash_reachable s) by (exists (Some "tok"); eexists; reflexivity).
  assert (Hin : nth_error (Dashboard.waiting s) 0
                = Some (Dashboard.AwaitChargeTrigger (Some "tok")))
    by (vm_compute; reflexivity).
  assert (Hrun : Dashboard.botRunning s = true) by (vm_compute; reflexivity).
  assert (Hoff : Dashboard.botRunning (Dashboard.run s1 [Dashboard.Fire 0]) = false)
    by (vm_compute; reflexivity).
  repeat split; try assumption; try (vm_compute; reflexivity).
  intros Hclaim.
  assert (Hnostop : ~ In Dashboard.StopBot [Dashboard.Fire 0]).
  { intros [H | []]. discriminate H. }
  specialize (Hclaim s 0%nat (Some "tok") [Dashboard.Fire 0] Hreach Hin Hrun Hnostop).
  fold s1 in Hclaim. rewrite Hoff in Hclaim. discriminate Hclaim.
Qed.

Lemma forallb_remove_nth {A : Type} (f : A -> bool) (l : list A) :
  forall i, forallb f l = true -> forallb f (remove_nth i l) = true.
Proof.
  induction l as [| h t IH]; intros i Hall; simpl in *; [reflexivity |].
  apply andb_prop in Hall. destruct Hall as [Hh Ht].
  destruct i; simpl; [exact Ht |].
  rewrite Hh. apply IH. exact Ht.
Qed.

Lemma forallb_nth_error {A : Type} (f : A -> bool) (l : list A) (i : nat) (x : A) :
  forallb f l = true -> nth_error l i = Some x -> f x = true.
Proof.
  intros Hall Hin. rewrite forallb_forall in Hall.
  apply Hall. eapply nth_error_In. exact Hin.
Qed.

(** Without Power ON, no timer gets armed and no [handleStartBot] parked. *)
Lemma step_keeps_no_start_run (s : Dashboard.State) (e : Dashboard.Event) :
  no_start_run s ->
  e <> Dashboard.StartBot ->
  no_start_run (Dashboard.step s e).
Proof.
  intros [Htim Hwait] Hstart. unfold Dashboard.step.
  destruct (Dashboard.offered s e); [| split; assumption].
  destruct e; simpl; try (split; assumption).
  - destruct (token_eqb (Dashboard.token s) t); [split; assumption |].
    split; [exact Htim |]. simpl. rewrite forallb_app, Hwait. reflexivity.
  - contradiction.
  - unfold Dashboard.handleChargingMode.
    destruct (Dashboard.selectedAccount s), (Dashboard.selectedStrategy s);
      try (split; assumption).
    split; [exact Htim |]. simpl. rewrite forallb_app, Hwait. reflexivity.
  - destruct (nth_error (Dashboard.waiting s) i) as [k |] eqn:Hin; [| split; assumption].
    destruct (Dashboard.fits k r); [| split; assumption].
    pose proof (forallb_nth_error _ _ _ _ Hwait Hin) as Hk.
    pose proof (forallb_remove_nth _ _ i Hwait) as Hrest.
    destruct k; try discriminate Hk;
      destruct r as [[l | l | l |] |]; unfold no_start_run; simpl;
      rewrite ?forallb_app, ?Hrest; try (split; [exact Htim | reflexivity]).
    destruct accs, strats; split; assumption.
  - rewrite Htim. destruct i; split; assumption.
Qed.

Lemma run_quiet_keeps_running (evs : list Dashboard.Event) :
  forall s : Dashboard.State,
    no_start_run s ->
    Dashboard.botRunning s = true ->
    ~ In Dashboard.StartBot evs ->
    ~ In Dashboard.StopBot evs ->
    Dashboard.botRunning (Dashboard.run s evs) = true.
Proof.
  induction evs as [| e evs IH]; intros s Hquiet Hrun Hstart Hstop; simpl.
  - exact Hrun.
  - assert (He1 : e <> Dashboard.StartBot) by (intros ->; apply Hstart; left; reflexivity).
    assert (He2 : e <> Dashboard.StopBot) by (intros ->; apply Hstop; left; reflexivity).
    apply IH.
    + apply step_keeps_no_start_run; assumption.
    + destruct e; try (apply step_keeps_running; [assumption | assumption | discriminate]).
      destruct Hquiet as [Htim _].
      unfold Dashboard.step. simpl. rewrite Htim. destruct i; exact Hrun.
    + intros H. apply Hstart. right. exact H.
    + intros H. apply Hstop. right. exact H.
Qed.

(** C8 (amended).  The [catch] block of [handleChargingMode] leaves
    [botRunning] raised and arms no timer.  From then on [botRunning] can
    only be lowered by Power OFF or by a timer going off, and the only
    timers are those of Power ON runs: when no such run is under way and
    Power ON is not pressed, the bot stays in the charging mode until
    Power OFF. *)
Theorem charging_failure_keeps_running :
  forall (s : Dashboard.State) (i : nat) (tk : Token),
    nth_error (Dashboard.waiting s) i = Some (Dashboard.AwaitChargeTrigger tk) ->
    Dashboard.botRunning s = true ->
    let s1 := Dashboard.step s (Dashboard.Settle i Dashboard.Rejected) in
    (Dashboard.botRunning s1 = true /\
     Dashboard.timers s1 = Dashboard.timers s /\
     Dashboard.error s1 = Dashboard.charging_failed) /\
    (forall evs,
        Dashboard.botRunning (Dashboard.run s1 evs) = false ->
        In Dashboard.StopBot evs \/ exists j, In (Dashboard.Fire j) evs) /\
    (forall evs,
        no_start_run s ->
        ~ In Dashboard.StartBot evs ->
        ~ In Dashboard.StopBot evs ->
        Dashboard.botRunning (Dashboard.run s1 evs) = true).
Proof.
  intros s i tk Hin Hrun s1.
  assert (Hs1 : Dashboard.botRunning s1 = true).
  { subst s1. apply step_keeps_running; [assumption | discriminate | discriminate]. }
  split; [| split].
  - split; [exact Hs1 |]. subst s1.
    unfold Dashboard.step, Dashboard.offered, Dashboard.handle.
    rewrite Hin. split; reflexivity.
  - intros evs. apply run_lowered_by_stop_or_timer. exact Hs1.
  - intros evs Hquiet Hstart Hstop.
    apply run_quiet_keeps_running; try assumption.
    subst s1. apply step_keeps_no_start_run; [assumption | discriminate].
Qed.

Lemma charging_failure_keeps_running_witness :
  let s := Dashboard.run (Dashboard.mount (Some "tok")) (loaded ++ [Dashboard.ChargingMode]) in
  let s1 := Dashboard.step s (Dashboard.Settle 0 Dashboard.Rejected) in
  (nth_error (Dashboard.waiting s) 0 = Some (Dashboard.AwaitChargeTrigger (Some "tok")) /\
   Dashboard.botRunning s = true /\
   no_start_run s) /\
  Dashboard.botRunning
    (Dashboard.run s1 [Dashboard.DismissError; Dashboard.SelectAccount "a2";
                       Dashboard.Fire 0; Dashboard.ChargingMode])
  = true.
Proof.
  intros s s1.
  assert (Hin : nth_error (Dashboard.waiting s) 0
                = Some (Dashboard.AwaitChargeTrigger (Some "tok")))
    by (vm_compute; reflexivity).
  assert (Hrun : Dashboard.botRunning s = true) by (vm_compute; reflexivity).
  assert (Hquiet : no_start_run s) by (split; vm_compute; reflexivity).
  split; [repeat split; assumption |].
  apply (proj2 (proj2 (charging_failure_keeps_running s 0%nat (Some "tok") Hin Hrun)));
    [exact Hquiet | |];
    simpl; intros H;
    repeat (destruct H as [H | H]; [discriminate H |]); exact H.
Defined.

(** * Further properties *)

(** ** Session store: what every run keeps *)

Lemma verifyToken_begin_cells (s : Auth.State) :
  Auth.token (Auth.verifyToken_begin s) = Auth.token s /\
  Auth.user (Auth.verifyToken_begin s) = Auth.user s /\
  Auth.stored (Auth.verifyToken_begin s) = Auth.stored s /\
  (Auth.loading s = false -> Auth.loading (Auth.verifyToken_begin s) = false).
Proof.
  unfold Auth.verifyToken_begin.
  destruct (Auth.token s) as [t |] eqn:Ht; [destruct (String.eqb t "") |];
    simpl; rewrite ?Ht; auto.
Qed.

Lemma effect_cells (before after : Auth.State) :
  Auth.token (Auth.effect before after) = Auth.token after /\
  Auth.user (Auth.effect before after) = Auth.user after /\
  Auth.stored (Auth.effect before after) = Auth.stored after /\
  (Auth.loading after = false -> Auth.loading (Auth.effect before after) = false).
Proof.
  unfold Auth.effect.
  destruct (token_eqb (Auth.token before) (Auth.token after)); [auto |].
  apply verifyToken_begin_cells.
Qed.

Lemma auth_run_invariant (P : Auth.State -> Prop) :
  (forall s e, P s -> P (Auth.step s e)) ->
  forall evs s, P s -> P (Auth.run s evs).
Proof.
  intros Hstep. induction evs as [| e evs IH]; intros s Hs; simpl.
  - exact Hs.
  - apply IH. apply Hstep. exact Hs.
Qed.

Lemma step_keeps_storage_mirror (s : Auth.State) (e : Auth.Event) :
  Auth.stored s = Auth.token s ->
  Auth.stored (Auth.step s e) = Auth.token (Auth.step s e).
Proof.
  intros Hs. destruct e as [t | | i r]; simpl.
  - unfold Auth.login.
    destruct (effect_cells s (Auth.setItem t (Auth.setToken (Some t) s)))
      as (-> & _ & -> & _). reflexivity.
  - unfold Auth.logout.
    destruct (effect_cells s
                (Auth.removeItem (Auth.setUser None (Auth.setToken None s))))
      as (-> & _ & -> & _). reflexivity.
  - destruct (nth_error (Auth.inflight s) i); [| exact Hs].
    destruct (effect_cells s (Auth.verifyToken_resume r (Auth.unpark i s)))
      as (-> & _ & -> & _).
    destruct r; simpl; [exact Hs | reflexivity].
Qed.

(** X1. In every state the provider can reach, the persisted item equals
    the token cell: [login] writes both, [logout] and a failed verification
    clear both, and nothing else touches either.  A reload therefore starts
    from the token the page last held. *)
Theorem storage_mirrors_token :
  forall (persisted : option string) (evs : list Auth.Event),
    let s := Auth.run (Auth.mount persisted) evs in
    Auth.stored s = Auth.token s /\
    Auth.token (Auth.initial (Auth.stored s)) = Auth.token s.
Proof.
  intros persisted evs s.
  assert (H : Auth.stored s = Auth.token s).
  { subst s. apply auth_run_invariant.
    - intros s e. apply step_keeps_storage_mirror.
    - unfold Auth.mount.
      destruct (verifyToken_begin_cells (Auth.initial persisted))
        as (-> & _ & -> & _). reflexivity. }
  split; [exact H |]. simpl. exact H.
Qed.

Lemma step_keeps_loading_down (s : Auth.State) (e : Auth.Event) :
  Auth.loading s = false -> Auth.loading (Auth.step s e) = false.
Proof.
  intros Hs. destruct e as [t | | i r]; simpl.
  - unfold Auth.login. apply effect_cells. exact Hs.
  - unfold Auth.logout. apply effect_cells. exact Hs.
  - destruct (nth_error (Auth.inflight s) i); [| exact Hs].
    apply effect_cells. destruct r; reflexivity.
Qed.

(** X2. No handler of the provider ever raises the loading flag: once the
    start-up pass has lowered it, it stays down through any logins, logouts
    and settlements, so the gate never reports pending again. *)
Theorem loading_never_raised :
  forall (s : Auth.State) (evs : list Auth.Event),
    Auth.loading s = false ->
    Auth.loading (Auth.run s evs) = false /\
    Auth.ProtectedRoute (Auth.run s evs) <> Auth.pending.
Proof.
  intros s evs Hs.
  assert (H : Auth.loading (Auth.run s evs) = false).
  { apply (auth_run_invariant (fun x => Auth.loading x = false));
      [intros x e; apply step_keeps_loading_down | exact Hs]. }
  split; [exact H |].
  unfold Auth.ProtectedRoute. rewrite H.
  destruct (negb (truthy (Auth.token (Auth.run s evs)))); discriminate.
Qed.

Lemma loading_never_raised_witness :
  let s := Auth.mount None in
  Auth.loading s = false /\
  Auth.loading
    (Auth.run s [Auth.Login "tok1"; Auth.Logout; Auth.Login "tok2";
                 Auth.Settle 0 (Auth.Rejected Auth.Expired)]) = false.
Proof.
  intros s.
  assert (Hs : Auth.loading s = false) by reflexivity.
  split; [exact Hs |].
  exact (proj1 (loading_never_raised s _ Hs)).
Defined.

Lemma Forall_remove_nth {A : Type} (P : A -> Prop) (l : list A) :
  forall i, Forall P l -> Forall P (remove_nth i l).
Proof.
  induction l as [| h t IH]; intros i Hall; simpl; [constructor |].
  inversion Hall as [| ? ? Hh Ht]; subst.
  destruct i; [exact Ht | constructor; [exact Hh | apply IH; exact Ht]].
Qed.

Lemma verifyToken_begin_sends_truthy (s : Auth.State) :
  Forall (fun t => t <> "") (Auth.inflight s) ->
  Forall (fun t => t <> "") (Auth.inflight (Auth.verifyToken_begin s)).
Proof.
  intros Hs. unfold Auth.verifyToken_begin.
  destruct (Auth.token s) as [t |]; [| exact Hs].
  destruct (String.eqb_spec t ""); [exact Hs |].
  simpl. apply Forall_app. split; [exact Hs | constructor; [assumption | constructor]].
Qed.

Lemma effect_sends_truthy (before after : Auth.State) :
  Forall (fun t => t <> "") (Auth.inflight after) ->
  Forall (fun t => t <> "") (Auth.inflight (Auth.effect before after)).
Proof.
  intros Hs. unfold Auth.effect.
  destruct (token_eqb (Auth.token before) (Auth.token after)); [exact Hs |].
  apply verifyToken_begin_sends_truthy. exact Hs.
Qed.

(** X3. A verification request is only ever sent for a truthy token: in
    every reachable state each request in flight carries a non-empty token.
    With no token, or an empty one, nothing is asked of the backend. *)
Theorem verification_only_for_truthy_token :
  forall (persisted : option string) (evs : list Auth.Event),
    Forall (fun t => t <> "")
           (Auth.inflight (Auth.run (Auth.mount persisted) evs)) /\
    (truthy persisted = false -> Auth.inflight (Auth.mount persisted) = []).
Proof.
  intros persisted evs. split.
  - apply (auth_run_invariant (fun x => Forall (fun t => t <> "") (Auth.inflight x))).
    + intros s e Hs. destruct e as [t | | i r]; simpl.
      * apply effect_sends_truthy. exact Hs.
      * apply effect_sends_truthy. exact Hs.
      * destruct (nth_error (Auth.inflight s) i); [| exact Hs].
        apply effect_sends_truthy.
        destruct r; simpl; apply Forall_remove_nth; exact Hs.
    + apply verifyToken_begin_sends_truthy. constructor.
  - unfold Auth.mount, Auth.verifyToken_begin. simpl.
    destruct persisted as [t |]; simpl; [| reflexivity].
    destruct (String.eqb t ""); [reflexivity | discriminate].
Qed.

(** X4. [logout] clears the token, the profile and the persisted item and
    sends nothing; doing it again changes nothing; and whatever the gate
    said before, it does not grant afterwards: a page that was shown is
    replaced by the redirect to the login page. *)
Theorem logout_clears_and_denies :
  forall s : Auth.State,
    let s' := Auth.logout s in
    (Auth.token s' = None /\ Auth.user s' = None /\ Auth.stored s' = None) /\
    Auth.inflight s' = Auth.inflight s /\
    Auth.logout s' = s' /\
    Auth.ProtectedRoute s' <> Auth.granted /\
    (Auth.ProtectedRoute s = Auth.granted -> Auth.ProtectedRoute s' = Auth.denied).
Proof.
  intros s s'. subst s'. unfold Auth.logout, Auth.effect.
  destruct s as [tk u ld st fl]. simpl.
  destruct tk as [t |]; simpl.
  - unfold Auth.verifyToken_begin. simpl. unfold Auth.ProtectedRoute. simpl.
    repeat split; try discriminate.
  - unfold Auth.ProtectedRoute. simpl.
    repeat split; destruct ld; try discriminate; reflexivity.
Qed.

(** ** Login and Register pages *)

Lemma login_run_invariant (P : LoginPage.State -> Prop) :
  (forall s e, P s -> P (LoginPage.step s e)) ->
  forall evs s, P s -> P (LoginPage.run s evs).
Proof.
  intros Hstep. induction evs as [| e evs IH]; intros s Hs; simpl.
  - exact Hs.
  - apply IH. apply Hstep. exact Hs.
Qed.

(** X5. The login page has at most one request in flight, and its submit
    button is disabled exactly while that request is in flight: in every
    state reached from the fresh page either [loading] is up and one call is
    parked, or [loading] is down and none is. *)
Theorem login_single_flight :
  forall (a : Auth.State) (evs : list LoginPage.Event),
    let s := LoginPage.run (LoginPage.initial a) evs in
    (LoginPage.loading s = true /\ LoginPage.waiting s = 1) \/
    (LoginPage.loading s = false /\ LoginPage.waiting s = 0).
Proof.
  intros a evs s. subst s.
  apply (login_run_invariant
           (fun x => (LoginPage.loading x = true /\ LoginPage.waiting x = 1) \/
                     (LoginPage.loading x = false /\ LoginPage.waiting x = 0))).
  - intros s e Hs. unfold LoginPage.step.
    destruct e as [f v | | r]; simpl.
    + destruct f; exact Hs.
    + destruct Hs as [[Hl Hw] | [Hl Hw]]; rewrite Hl; simpl.
      * left. split; assumption.
      * left. rewrite Hw. split; reflexivity.
    + destruct Hs as [[Hl Hw] | [Hl Hw]]; rewrite Hw; simpl.
      * right. destruct r; simpl; rewrite Hw; split; reflexivity.
      * right. split; assumption.
  - right. split; reflexivity.
Qed.

(** X6. Failed logins never touch the session: along any run of the login
    page in which no login request is fulfilled, the session store stays
    the one the page started with and the location stays the login page. *)
Theorem failed_logins_leave_session :
  forall (s : LoginPage.State) (evs : list LoginPage.Event),
    only_rejections evs ->
    LoginPage.auth (LoginPage.run s evs) = LoginPage.auth s /\
    LoginPage.route (LoginPage.run s evs) = LoginPage.route s.
Proof.
  intros s evs. revert s.
  induction evs as [| e evs IH]; intros s Hrej; simpl; [split; reflexivity |].
  assert (Hrest : only_rejections evs).
  { intros t H. apply (Hrej t). right. exact H. }
  destruct (IH (LoginPage.step s e) Hrest) as [-> ->].
  unfold LoginPage.step.
  destruct (LoginPage.offered s e); [| split; reflexivity].
  destruct e as [f v | | r]; simpl.
  - destruct f; split; reflexivity.
  - split; reflexivity.
  - destruct r as [t | d]; [| split; reflexivity].
    exfalso. apply (Hrej t). left. reflexivity.
Qed.

Lemma failed_logins_leave_session_witness :
  let evs := [LoginPage.Change LoginPage.Username "alice"; LoginPage.Submit;
              LoginPage.Settle (LoginPage.Rejected (Some "Incorrect username or password"))] in
  only_rejections evs /\
  LoginPage.auth (LoginPage.run (LoginPage.initial (Auth.mount None)) evs)
  = Auth.mount None.
Proof.
  intros evs.
  assert (Hrej : only_rejections evs).
  { intros t H. simpl in H.
    repeat (destruct H as [H | H]; [discriminate H |]). exact H. }
  split; [exact Hrej |].
  exact (proj1 (failed_logins_leave_session
                  (LoginPage.initial (Auth.mount None)) evs Hrej)).
Defined.

(** X7. When a login request is fulfilled with token [t], the page stores
    [t] in the token cell and in the storage, keeps the profile cell as it
    was and goes to the dashboard route.  For a truthy [t] that differs from
    the current token one verification is sent under [t], and if the
    start-up pass of the provider is over the gate grants at once, before
    that verification settles.  For an empty [t] nothing is sent and the
    gate does not grant. *)
Theorem fulfilled_login_opens_gate :
  forall (s : LoginPage.State) (t : string),
    LoginPage.waiting s <> 0 ->
    let a := LoginPage.auth s in
    let s' := LoginPage.step s (LoginPage.Settle (LoginPage.Fulfilled t)) in
    let a' := LoginPage.auth s' in
    (LoginPage.route s' = "/" /\ LoginPage.loading s' = false /\
     LoginPage.error s' = LoginPage.error s) /\
    (Auth.token a' = Some t /\ Auth.stored a' = Some t /\ Auth.user a' = Auth.user a) /\
    (t <> "" ->
     (token_eqb (Auth.token a) (Some t) = false ->
      Auth.inflight a' = Auth.inflight a ++ [t]) /\
     (Auth.loading a = false -> Auth.ProtectedRoute a' = Auth.granted)) /\
    (t = "" ->
     Auth.inflight a' = Auth.inflight a /\ Auth.ProtectedRoute a' <> Auth.granted).
Proof.
  intros s t Hwait a s' a'. subst a s' a'.
  unfold LoginPage.step, LoginPage.offered.
  destruct (Nat.eqb_spec (LoginPage.waiting s) 0) as [E | _]; [contradiction |].
  simpl. unfold Auth.login.
  set (a := LoginPage.auth s).
  set (after := Auth.setItem t (Auth.setToken (Some t) a)).
  destruct (effect_cells a after) as (Htok & Husr & Hsto & Hload).
  split; [repeat split |]. split; [repeat split; assumption |]. split.
  - intros Hne. split.
    + intros Hdiff. unfold Auth.effect. simpl. rewrite Hdiff.
      unfold Auth.verifyToken_begin. simpl.
      destruct (String.eqb_spec t ""); [contradiction | reflexivity].
    + intros Hdown. unfold Auth.ProtectedRoute.
      rewrite (Hload Hdown), Htok. simpl.
      destruct (String.eqb_spec t ""); [contradiction | reflexivity].
  - intros ->. split.
    + unfold Auth.effect. simpl.
      destruct (token_eqb (Auth.token a) (Some "")); [reflexivity |].
      unfold Auth.verifyToken_begin. reflexivity.
    + unfold Auth.ProtectedRoute. rewrite Htok. simpl.
      destruct (Auth.loading (Auth.effect a after)); discriminate.
Qed.

Lemma fulfilled_login_opens_gate_witness :
  let s := LoginPage.run (LoginPage.initial (Auth.mount None)) [LoginPage.Submit] in
  LoginPage.waiting s <> 0 /\
  LoginPage.route (LoginPage.step s (LoginPage.Settle (LoginPage.Fulfilled "tok1"))) = "/".
Proof.
  intros s.
  assert (Hwait : LoginPage.waiting s <> 0) by (vm_compute; discriminate).
  split; [exact Hwait |].
  exact (proj1 (proj1 (fulfilled_login_opens_gate s "tok1" Hwait))).
Defined.

Lemma register_run_invariant (P : RegisterPage.State -> Prop) :
  (forall s e, P s -> P (RegisterPage.step s e)) ->
  forall evs s, P s -> P (RegisterPage.run s evs).
Proof.
  intros Hstep. induction evs as [| e evs IH]; intros s Hs; simpl.
  - exact Hs.
  - apply IH. apply Hstep. exact Hs.
Qed.

(** X8. The register page sends a request only when the two password
    fields are equal: a submit with different passwords posts nothing, shows
    "Passwords do not match" and leaves the button enabled.  In every state
    reached from the fresh page at most one request is in flight, and the
    button is disabled exactly while it is. *)
Theorem register_checks_confirmation :
  (forall s : RegisterPage.State,
      RegisterPage.password (RegisterPage.formData s)
      <> RegisterPage.confirmPassword (RegisterPage.formData s) ->
      let s' := RegisterPage.handleSubmit_begin s in
      RegisterPage.posted s' = RegisterPage.posted s /\
      RegisterPage.waiting s' = RegisterPage.waiting s /\
      RegisterPage.error s' = "Passwords do not match" /\
      RegisterPage.loading s' = false) /\
  (forall evs : list RegisterPage.Event,
      let s := RegisterPage.run RegisterPage.initial evs in
      (RegisterPage.loading s = true /\ RegisterPage.waiting s = 1) \/
      (RegisterPage.loading s = false /\ RegisterPage.waiting s = 0)).
Proof.
  split.
  - intros s Hne s'. subst s'. unfold RegisterPage.handleSubmit_begin.
    destruct (String.eqb_spec (RegisterPage.password (RegisterPage.formData s))
                (RegisterPage.confirmPassword (RegisterPage.formData s)));
      [contradiction | repeat split].
  - intros evs s. subst s.
    apply (register_run_invariant
             (fun x => (RegisterPage.loading x = true /\ RegisterPage.waiting x = 1) \/
                       (RegisterPage.loading x = false /\ RegisterPage.waiting x = 0))).
    + intros s e Hs. unfold RegisterPage.step.
      destruct e as [f v | | r]; simpl.
      * destruct f; exact Hs.
      * destruct Hs as [[Hl Hw] | [Hl Hw]]; rewrite Hl; simpl.
        -- left. split; assumption.
        -- unfold RegisterPage.handleSubmit_begin.
           destruct (String.eqb (RegisterPage.password (RegisterPage.formData s))
                       (RegisterPage.confirmPassword (RegisterPage.formData s)));
             simpl; [left | right]; rewrite ?Hw; split; reflexivity.
      * destruct Hs as [[Hl Hw] | [Hl Hw]]; rewrite Hw; simpl.
        -- right. destruct r; simpl; rewrite Hw; split; reflexivity.
        -- right. split; assumption.
    + right. split; reflexivity.
Qed.

(** ** Accounts page *)

Lemma filter_fresh_snoc (l : list Account) (r : Account) :
  (forall a, In a l -> account_id a <> account_id r) ->
  filter (other_id (account_id r)) (l ++ [r]) = l.
Proof.
  intros Hfresh. rewrite filter_app. simpl.
  unfold other_id at 2. rewrite String.eqb_refl. simpl. rewrite app_nil_r.
  induction l as [| h t IH]; simpl; [reflexivity |].
  unfold other_id at 1.
  destruct (String.eqb_spec (account_id h) (account_id r)) as [E | _].
  - exfalso. apply (Hfresh h); [left; reflexivity | exact E].
  - simpl. rewrite IH; [reflexivity |].
    intros a Ha. apply Hfresh. right. exact Ha.
Qed.

Lemma existsb_snoc_self (l : list Account) (r : Account) :
  existsb (fun a => String.eqb (account_id a) (account_id r)) (l ++ [r]) = true.
Proof.
  rewrite existsb_app. simpl. rewrite String.eqb_refl.
  rewrite orb_true_r. reflexivity.
Qed.

(** X9. Adding an account and then deleting it gives the list back: when
    the backend returns a record whose id no listed account has, a fulfilled
    add followed by a confirmed, fulfilled delete of that id leaves the
    accounts exactly as they were, in the same order, after one POST and one
    DELETE. *)
Theorem add_then_delete_restores :
  forall (s : AccountsPage.State) (r : Account),
    AccountsPage.isLoading s = false ->
    AccountsPage.isAddingAccount s = true ->
    (forall a, In a (AccountsPage.accounts s) -> account_id a <> account_id r) ->
    let n := List.length (AccountsPage.waiting s) in
    let s' := AccountsPage.run s
                [AccountsPage.Submit;
                 AccountsPage.Settle n (AccountsPage.Fulfilled (AccountsPage.Row r));
                 AccountsPage.Delete (account_id r) true;
                 AccountsPage.Settle n (AccountsPage.Fulfilled AccountsPage.Empty)] in
    AccountsPage.accounts s' = AccountsPage.accounts s /\
    AccountsPage.waiting s' = AccountsPage.waiting s /\
    AccountsPage.net s'
    = AccountsPage.net s ++
      [AccountsPage.mkReq (AccountsPage.PostAccount (AccountsPage.formData s))
                          (AccountsPage.token s);
       AccountsPage.mkReq (AccountsPage.DeleteAccount (account_id r))
                          (AccountsPage.token s)].
Proof.
  intros s r Hload Hadd Hfresh n s'. subst n s'.
  destruct s as [tk accs ld err adding form net waiting].
  simpl in Hload, Hadd, Hfresh. subst ld adding.
  unfold AccountsPage.run. simpl.
  unfold AccountsPage.step, AccountsPage.offered, AccountsPage.handle. simpl.
  repeat (progress (simpl;
                    rewrite ?nth_error_last, ?remove_nth_last, ?existsb_snoc_self)).
  fold (other_id (account_id r)).
  rewrite (filter_fresh_snoc accs r Hfresh).
  rewrite <- app_assoc. repeat split.
Qed.

Lemma add_then_delete_restores_witness :
  let s := AccountsPage.run (AccountsPage.mount (Some "tok"))
             [AccountsPage.Settle 0 (AccountsPage.Fulfilled (AccountsPage.Rows [A1]));
              AccountsPage.ToggleAdd] in
  (AccountsPage.isLoading s = false /\ AccountsPage.isAddingAccount s = true /\
   AccountsPage.accounts s = [A1]) /\
  AccountsPage.accounts
    (AccountsPage.run s
       [AccountsPage.Submit;
        AccountsPage.Settle (List.length (AccountsPage.waiting s))
          (AccountsPage.Fulfilled (AccountsPage.Row A2));
        AccountsPage.Delete (account_id A2) true;
        AccountsPage.Settle (List.length (AccountsPage.waiting s))
          (AccountsPage.Fulfilled AccountsPage.Empty)])
  = AccountsPage.accounts s.
Proof.
  intros s.
  assert (Hload : AccountsPage.isLoading s = false) by (vm_compute; reflexivity).
  assert (Hadd : AccountsPage.isAddingAccount s = true) by (vm_compute; reflexivity).
  assert (Haccs : AccountsPage.accounts s = [A1]) by (vm_compute; reflexivity).
  assert (Hfresh : forall a, In a (AccountsPage.accounts s) ->
                             account_id a <> account_id A2).
  { rewrite Haccs. intros a [<- | []]. discriminate. }
  split; [repeat split; assumption |].
  exact (proj1 (add_then_delete_restores s A2 Hload Hadd Hfresh)).
Defined.

Lemma nth_error_before_last {A : Type} (l : list A) (x y : A) :
  nth_error ((l ++ [x]) ++ [y]) (List.length l) = Some x.
Proof. induction l as [| h t IH]; simpl; [reflexivity | exact IH]. Qed.

Lemma remove_nth_before_last {A : Type} (l : list A) (x y : A) :
  remove_nth (List.length l) ((l ++ [x]) ++ [y]) = l ++ [y].
Proof. induction l as [| h t IH]; simpl; [reflexivity | rewrite IH; reflexivity]. Qed.

Lemma nth_error_second_last {A : Type} (l : list A) (x y : A) :
  nth_error ((l ++ [x]) ++ [y]) (S (List.length l)) = Some y.
Proof. induction l as [| h t IH]; simpl; [reflexivity | exact IH]. Qed.

Lemma remove_nth_second_last {A : Type} (l : list A) (x y : A) :
  remove_nth (S (List.length l)) ((l ++ [x]) ++ [y]) = l ++ [x].
Proof. induction l as [| h t IH]; simpl; [reflexivity | rewrite IH; reflexivity]. Qed.

(** X10. The handlers of the accounts page work on the list of the render
    they were called from.  When two deletes are confirmed before either
    request settles, each settlement writes that list minus its own id, so
    after both are fulfilled only the delete that settled last shows: an
    account removed by the first one is listed again. *)
Theorem overlapping_deletes_keep_last :
  forall (s : AccountsPage.State) (a b : string),
    AccountsPage.isLoading s = false ->
    existsb (fun x => String.eqb (account_id x) a) (AccountsPage.accounts s) = true ->
    existsb (fun x => String.eqb (account_id x) b) (AccountsPage.accounts s) = true ->
    let n := List.length (AccountsPage.waiting s) in
    let both := AccountsPage.run s
                  [AccountsPage.Delete a true; AccountsPage.Delete b true] in
    let ok := AccountsPage.Fulfilled AccountsPage.Empty in
    AccountsPage.accounts
      (AccountsPage.run both [AccountsPage.Settle n ok; AccountsPage.Settle n ok])
    = filter (other_id b) (AccountsPage.accounts s) /\
    AccountsPage.accounts
      (AccountsPage.run both [AccountsPage.Settle (S n) ok; AccountsPage.Settle n ok])
    = filter (other_id a) (AccountsPage.accounts s) /\
    (a <> b ->
     forall x, In x (AccountsPage.accounts s) -> account_id x = a ->
       In x (AccountsPage.accounts
               (AccountsPage.run both
                  [AccountsPage.Settle n ok; AccountsPage.Settle n ok]))).
Proof.
  intros s a b Hload Ha Hb n both ok.
  assert (Hboth : AccountsPage.waiting both
                  = (AccountsPage.waiting s
                       ++ [AccountsPage.AwaitDelete (AccountsPage.accounts s) a])
                    ++ [AccountsPage.AwaitDelete (AccountsPage.accounts s) b]).
  { subst both. unfold AccountsPage.run. simpl.
    unfold AccountsPage.step, AccountsPage.offered, AccountsPage.handle.
    rewrite Hload, Ha. simpl. rewrite Hload, Hb. reflexivity. }
  assert (Hfirst : AccountsPage.accounts
                     (AccountsPage.run both
                        [AccountsPage.Settle n ok; AccountsPage.Settle n ok])
                   = filter (other_id b) (AccountsPage.accounts s)).
  { unfold AccountsPage.run. simpl.
    unfold AccountsPage.step, AccountsPage.offered, AccountsPage.handle. simpl.
    rewrite Hboth. subst n. rewrite nth_error_before_last. simpl.
    rewrite Hboth, remove_nth_before_last, nth_error_last. reflexivity. }
  split; [exact Hfirst | split].
  - unfold AccountsPage.run. cbn [fold_left].
    unfold AccountsPage.step, AccountsPage.offered, AccountsPage.handle.
    cbv beta iota.
    rewrite Hboth. subst n. rewrite nth_error_second_last. simpl.
    rewrite Hboth, remove_nth_second_last, nth_error_last. reflexivity.
  - intros Hne x Hx Hid. rewrite Hfirst. apply filter_In. split; [exact Hx |].
    unfold other_id. rewrite Hid.
    destruct (String.eqb_spec a b); [contradiction | reflexivity].
Qed.

Lemma overlapping_deletes_keep_last_witness :
  let s := AccountsPage.run (AccountsPage.mount (Some "tok"))
             [AccountsPage.Settle 0 (AccountsPage.Fulfilled (AccountsPage.Rows [A1; A2]))] in
  let ok := AccountsPage.Fulfilled AccountsPage.Empty in
  AccountsPage.isLoading s = false /\
  AccountsPage.accounts
    (AccountsPage.run
       (AccountsPage.run s [AccountsPage.Delete "a1" true; AccountsPage.Delete "a2" true])
       [AccountsPage.Settle (List.length (AccountsPage.waiting s)) ok;
        AccountsPage.Settle (List.length (AccountsPage.waiting s)) ok])
  = filter (other_id "a2") (AccountsPage.accounts s).
Proof.
  intros s ok.
  assert (Hload : AccountsPage.isLoading s = false) by (vm_compute; reflexivity).
  split; [exact Hload |].
  exact (proj1 (overlapping_deletes_keep_last s "a1" "a2" Hload
                  ltac:(vm_compute; reflexivity) ltac:(vm_compute; reflexivity))).
Defined.

(** ** Strategies page *)

Section StrategiesFacts.

Variable Num : Type.
Variable parseFloat : string -> Num.
Variable literal : Z -> Num.

Local Abbreviation Row := (StrategiesPage.Row Num).
Local Abbreviation State := (StrategiesPage.State Num).
Local Abbreviation step := (StrategiesPage.step Num parseFloat literal).
Local Abbreviation run := (StrategiesPage.run Num parseFloat literal).
Local Abbreviation row_id := (StrategiesPage.id Num).

Lemma replace_by_id_shape (captured : list Row) (eid : string) (r : Row) :
  let new := map (fun x => if String.eqb (row_id x) eid then r else x) captured in
  List.length new = List.length captured /\
  (forall x, In x captured -> row_id x <> eid -> In x new) /\
  (forall x, In x new -> x = r \/ (In x captured /\ row_id x <> eid)) /\
  (row_id r = eid -> map row_id new = map row_id captured) /\
  ((forall x, In x captured -> row_id x <> eid) -> new = captured).
Proof.
  intros new. subst new. split; [apply length_map |].
  induction captured as [| h t (IH1 & IH2 & IH3 & IH4)]; simpl.
  - repeat split; intros; try contradiction; reflexivity.
  - destruct (String.eqb_spec (row_id h) eid) as [E | E]; repeat split.
    + intros x [-> | Hx] Hne; [contradiction | right; apply IH1; assumption].
    + intros x [<- | Hx]; [left; reflexivity |].
      destruct (IH2 x Hx) as [-> | [Hin Hne]]; [left; reflexivity |].
      right. split; [right; exact Hin | exact Hne].
    + intros Hr. rewrite Hr, E, (IH3 Hr). reflexivity.
    + intros Hnone. exfalso. apply (Hnone h); [left; reflexivity | exact E].
    + intros x [-> | Hx] Hne; [left; reflexivity | right; apply IH1; assumption].
    + intros x [<- | Hx]; [right; split; [left; reflexivity | exact E] |].
      destruct (IH2 x Hx) as [-> | [Hin Hne]]; [left; reflexivity |].
      right. split; [right; exact Hin | exact Hne].
    + intros Hr. rewrite (IH3 Hr). reflexivity.
    + intros Hnone. rewrite IH4; [reflexivity |].
      intros x Hx. apply Hnone. right. exact Hx.
Qed.

(** X11. A fulfilled update replaces, in the list the form was submitted
    from, every row that has the edited id by the record the backend
    returned, and nothing else: the list keeps its length, the rows with
    another id keep their place, the ids keep their order when the returned
    record has the edited id, and a list without that id is left as it was.
    The form is closed and put back to its defaults. *)
Theorem update_replaces_by_id :
  forall (s : State) (i : nat) (captured : list Row) (eid : string) (r : Row),
    nth_error (StrategiesPage.waiting Num s) i
    = Some (StrategiesPage.AwaitUpdate Num captured eid) ->
    let s' := step s (StrategiesPage.Settle Num i
                        (StrategiesPage.Fulfilled Num (StrategiesPage.One Num r))) in
    let new := StrategiesPage.strategies Num s' in
    (List.length new = List.length captured /\
     (forall x, In x captured -> row_id x <> eid -> In x new) /\
     (forall x, In x new -> x = r \/ (In x captured /\ row_id x <> eid)) /\
     (row_id r = eid -> map row_id new = map row_id captured) /\
     ((forall x, In x captured -> row_id x <> eid) -> new = captured)) /\
    StrategiesPage.isEditingStrategy Num s' = false /\
    StrategiesPage.editingStrategyId Num s' = None /\
    StrategiesPage.formData Num s' = StrategiesPage.defaultForm Num literal.
Proof.
  intros s i captured eid r Hin s' new. subst new s'.
  unfold StrategiesPage.step, StrategiesPage.offered, StrategiesPage.handle.
  rewrite Hin. simpl. split; [| repeat split].
  apply replace_by_id_shape.
Qed.

(** X12. Pressing Edit on a listed strategy and submitting sends one PUT to
    that strategy's id whose body is the strategy's own five fields; when
    the id is the empty string the truthiness test takes the create branch
    and the same body is POSTed instead.  Pressing Cancel in between forgets
    the id: after reopening the form and typing a name the submit is a
    create with that name and the default numbers, never an update of the
    strategy that was being edited. *)
Theorem edit_then_submit :
  forall (s : State) (row : Row),
    StrategiesPage.isLoading Num s = false ->
    existsb (StrategiesPage.row_eqb_id Num row) (StrategiesPage.strategies Num s) = true ->
    let edited := step s (StrategiesPage.Edit Num row) in
    let sent e := StrategiesPage.net Num s
                  ++ [StrategiesPage.mkReq Num e (StrategiesPage.token Num s)] in
    (row_id row <> "" ->
     StrategiesPage.net Num (step edited (StrategiesPage.Submit Num))
     = sent (StrategiesPage.PutStrategy Num (row_id row) (StrategiesPage.fields Num row))) /\
    (row_id row = "" ->
     StrategiesPage.net Num (step edited (StrategiesPage.Submit Num))
     = sent (StrategiesPage.PostStrategy Num (StrategiesPage.fields Num row))) /\
    (forall v : string,
        StrategiesPage.net Num
          (run edited [StrategiesPage.ToggleForm Num; StrategiesPage.ToggleForm Num;
                       StrategiesPage.Input Num (StrategiesPage.Name v);
                       StrategiesPage.Submit Num])
        = sent (StrategiesPage.PostStrategy Num
                  (StrategiesPage.mkForm Num v
                     (StrategiesPage.VNum Num (literal 60))
                     (StrategiesPage.VNum Num (literal 40))
                     (StrategiesPage.VNum Num (literal 10))
                     (StrategiesPage.VNum Num (literal 60))))).
Proof.
  intros s row Hload Hlisted edited sent. subst edited sent.
  destruct row as [rid [nm up lo amt ex]].
  destruct s as [tk strats ld err editing eid form net waiting].
  simpl in Hload, Hlisted. subst ld.
  unfold StrategiesPage.run. cbn [fold_left].
  unfold StrategiesPage.step, StrategiesPage.offered, StrategiesPage.handle.
  simpl. rewrite Hlisted. simpl.
  unfold StrategiesPage.handleSubmit_begin. simpl.
  repeat split.
  - intros Hne. destruct (String.eqb_spec rid ""); [contradiction | reflexivity].
  - intros ->. reflexivity.
Qed.

End StrategiesFacts.

Lemma update_replaces_by_id_witness :
  let s := StrategiesPage.run Z (fun _ => 0%Z) (fun z => z) sample_strategies
             [StrategiesPage.Edit Z sample_row; StrategiesPage.Submit Z] in
  nth_error (StrategiesPage.waiting Z s) 0
  = Some (StrategiesPage.AwaitUpdate Z [sample_row] "s1") /\
  StrategiesPage.isEditingStrategy Z
    (StrategiesPage.step Z (fun _ => 0%Z) (fun z => z) s
       (StrategiesPage.Settle Z 0
          (StrategiesPage.Fulfilled Z (StrategiesPage.One Z sample_row))))
  = false.
Proof.
  intros s.
  assert (Hin : nth_error (StrategiesPage.waiting Z s) 0
                = Some (StrategiesPage.AwaitUpdate Z [sample_row] "s1"))
    by (vm_compute; reflexivity).
  split; [exact Hin |].
  exact (proj1 (proj2 (update_replaces_by_id Z (fun _ => 0%Z) (fun z => z)
                         s 0%nat [sample_row] "s1" sample_row Hin))).
Defined.

Lemma edit_then_submit_witness :
  StrategiesPage.isLoading Z sample_strategies = false /\
  StrategiesPage.net Z
    (StrategiesPage.step Z (fun _ => 0%Z) (fun z => z)
       (StrategiesPage.step Z (fun _ => 0%Z) (fun z => z) sample_strategies
          (StrategiesPage.Edit Z sample_row))
       (StrategiesPage.Submit Z))
  = StrategiesPage.net Z sample_strategies
    ++ [StrategiesPage.mkReq Z
          (StrategiesPage.PutStrategy Z (StrategiesPage.id Z sample_row)
             (StrategiesPage.fields Z sample_row))
          (StrategiesPage.token Z sample_strategies)].
Proof.
  assert (Hload : StrategiesPage.isLoading Z sample_strategies = false)
    by (vm_compute; reflexivity).
  split; [exact Hload |].
  apply (proj1 (edit_then_submit Z (fun _ => 0%Z) (fun z => z)
                  sample_strategies sample_row Hload
                  ltac:(vm_compute; reflexivity))).
  discriminate.
Defined.

(** ** Theme provider and theme switcher *)

Lemma known_theme_has_no_space (t : string) :
  In t Theme.THEMES -> Theme.has_space (String.append "theme-" t) = false.
Proof.
  intros H. simpl in H.
  repeat (destruct H as [<- | H]; [vm_compute; reflexivity |]).
  contradiction.
Qed.

Lemma effect_establishes_theme (s : Theme.State) :
  In (Theme.theme s) Theme.THEMES ->
  (List.length (Theme.fontLinks s) <= 1)%nat ->
  exists s', Theme.themeEffect s = Theme.Done s' /\ themed s' /\
             Theme.theme s' = Theme.theme s.
Proof.
  intros Hin Hlinks. unfold Theme.themeEffect.
  rewrite (known_theme_has_no_space _ Hin).
  destruct s as [t st cls links]. simpl in *.
  destruct links as [| l [| l2 rest]]; simpl in *; try lia;
    eexists; (split; [reflexivity |]); repeat split; assumption.
Qed.

Lemma click_keeps_theme (s : Theme.State) (b : Theme.Button) :
  themed s ->
  exists s', Theme.click (Theme.Done s) b = Theme.Done s' /\ themed s' /\
             Theme.theme s' = Theme.theme_of b.
Proof.
  intros Hs. simpl. unfold Theme.setTheme.
  destruct (String.eqb_spec (Theme.theme_of b) (Theme.theme s)) as [E | _].
  - exists s. repeat split; try apply Hs. symmetry. exact E.
  - destruct (effect_establishes_theme (Theme.withTheme (Theme.theme_of b) s))
      as (s' & Hrun & Hthemed & Htheme).
    + simpl. destruct b; simpl; auto 10.
    + simpl. destruct Hs as (_ & _ & _ & ->). simpl. lia.
    + exists s'. repeat split; try apply Hthemed; assumption.
Qed.

Lemma last_after_cons {A : Type} (l : list A) :
  forall x d : A, last (x :: l) d = last l x.
Proof.
  induction l as [| y t IH]; intros x d; [reflexivity |].
  change (last (x :: y :: t) d) with (last (y :: t) d).
  rewrite (IH y d), (IH y x). reflexivity.
Qed.

Lemma clicks_keep_theme (clicks : list Theme.Button) :
  forall s, themed s ->
    exists s', Theme.run (Theme.Done s) clicks = Theme.Done s' /\ themed s' /\
               Theme.theme s' = last (map Theme.theme_of clicks) (Theme.theme s).
Proof.
  induction clicks as [| b rest IH]; intros s Hs.
  - exists s. repeat split; apply Hs.
  - destruct (click_keeps_theme s b Hs) as (s1 & Hclick & Hthemed & Htheme).
    destruct (IH s1 Hthemed) as (s' & Hrun & Hthemed' & Hlast).
    exists s'. split; [| split; [exact Hthemed' |]].
    + unfold Theme.run in *. cbn [fold_left]. rewrite Hclick. exact Hrun.
    + rewrite Hlast, Htheme. cbn [map]. symmetry. apply last_after_cons.
Qed.

(** X13. Started on a fresh document from an empty storage, or from one
    that holds one of the five theme names, and driven by any clicks on the
    buttons of the switcher, the provider never throws and always ends with
    one of the five themes, namely the one clicked last; the storage holds
    that theme, the body carries exactly the one class [theme-<name>]
    (earlier ones do not pile up, and classes found on the body are
    dropped), and there is exactly one stylesheet link, pointing at the
    fonts of that theme. *)
Theorem switcher_keeps_theme_consistent :
  forall (saved : option string) (classes : list string)
         (clicks : list Theme.Button),
    In (Theme.initialTheme saved) Theme.THEMES ->
    exists s,
      Theme.run (Theme.mount saved classes []) clicks = Theme.Done s /\
      themed s /\
      Theme.theme s
      = last (map Theme.theme_of clicks) (Theme.initialTheme saved).
Proof.
  intros saved classes clicks Hinit. unfold Theme.mount.
  destruct (effect_establishes_theme
              (Theme.mk (Theme.initialTheme saved) saved classes []))
    as (s0 & Hmount & Hthemed & Htheme); [exact Hinit | simpl; lia |].
  rewrite Hmount.
  destruct (clicks_keep_theme clicks s0 Hthemed) as (s & Hrun & Hs & Hlast).
  exists s. repeat split; try apply Hs; [exact Hrun |].
  rewrite Hlast, Htheme. reflexivity.
Qed.

Lemma switcher_keeps_theme_consistent_witness :
  In (Theme.initialTheme None) Theme.THEMES /\
  exists s,
    Theme.run (Theme.mount None ["dark"] []) [Theme.Cyberpunk; Theme.Jarvis]
    = Theme.Done s /\
    themed s /\
    Theme.theme s
    = last (map Theme.theme_of [Theme.Cyberpunk; Theme.Jarvis]) (Theme.initialTheme None).
Proof.
  assert (Hinit : In (Theme.initialTheme None) Theme.THEMES) by (left; reflexivity).
  split; [exact Hinit |].
  exact (switcher_keeps_theme_consistent None ["dark"]
           [Theme.Cyberpunk; Theme.Jarvis] Hinit).
Defined.

Lemma has_space_after_prefix (t : string) :
  Theme.has_space (String.append "theme-" t) = Theme.has_space t.
Proof. reflexivity. Qed.

(** X14. The effect writes the theme to the storage before anything that
    can fail, so a reload brings back any non-empty theme: the provider
    mounted from the storage the effect left starts with the same theme.
    The effect throws exactly when the theme name contains whitespace (the
    class token is refused); such a name is persisted all the same, so the
    mount after the reload throws again. *)
Theorem theme_survives_reload :
  forall (s : Theme.State) (classes links : list string),
    Theme.theme s <> "" ->
    let o := Theme.themeEffect s in
    let again := Theme.mount (Theme.stored (Theme.state_of o)) classes links in
    Theme.stored (Theme.state_of o) = Some (Theme.theme s) /\
    Theme.initialTheme (Theme.stored (Theme.state_of o)) = Theme.theme s /\
    threw o = Theme.has_space (Theme.theme s) /\
    threw again = Theme.has_space (Theme.theme s).
Proof.
  intros s classes links Hne o again.
  assert (Hstored : Theme.stored (Theme.state_of o) = Some (Theme.theme s)).
  { subst o. unfold Theme.themeEffect.
    destruct (Theme.has_space (String.append "theme-" (Theme.theme s)));
      [reflexivity |].
    destruct s as [t st cls links0]. simpl. destruct links0; reflexivity. }
  assert (Hinit : Theme.initialTheme (Some (Theme.theme s)) = Theme.theme s).
  { simpl. destruct (String.eqb_spec (Theme.theme s) ""); [contradiction | reflexivity]. }
  split; [exact Hstored |]. rewrite Hstored. split; [exact Hinit |]. split.
  - subst o. unfold Theme.themeEffect. rewrite has_space_after_prefix.
    destruct (Theme.has_space (Theme.theme s)); reflexivity.
  - subst again. rewrite Hstored. unfold Theme.mount, Theme.themeEffect.
    cbn [Theme.theme]. rewrite Hinit, has_space_after_prefix.
    destruct (Theme.has_space (Theme.theme s)); reflexivity.
Qed.

Lemma theme_survives_reload_witness :
  let s := Theme.mk "green-goblin" None [] [] in
  Theme.theme s <> "" /\
  Theme.initialTheme (Theme.stored (Theme.state_of (Theme.themeEffect s)))
  = Theme.theme s.
Proof.
  intros s.
  assert (Hne : Theme.theme s <> "") by discriminate.
  split; [exact Hne |].
  exact (proj1 (proj2 (theme_survives_reload s [] [] Hne))).
Defined.

(** X15. The switcher puts the ring on a button exactly when the current
    theme is that button's theme: for each of the five themes exactly one
    button is highlighted, and for any other string none is. *)
Theorem switcher_highlights_current :
  forall current : string,
    List.length (filter (Theme.highlighted current) Theme.buttons)
    = (if existsb (String.eqb current) Theme.THEMES then 1 else 0)%nat /\
    (forall b, Theme.highlighted current b = true <-> Theme.theme_of b = current).
Proof.
  intros current. split.
  - unfold Theme.highlighted, Theme.buttons, Theme.THEMES. simpl.
    destruct (String.eqb_spec current Theme.DEFAULT) as [-> | _];
      [vm_compute; reflexivity |].
    destruct (String.eqb_spec current Theme.GREEN_GOBLIN) as [-> | _];
      [vm_compute; reflexivity |].
    destruct (String.eqb_spec current Theme.FUTURISTIC) as [-> | _];
      [vm_compute; reflexivity |].
    destruct (String.eqb_spec current Theme.CYBERPUNK) as [-> | _];
      [vm_compute; reflexivity |].
    destruct (String.eqb_spec current Theme.JARVIS) as [-> | _];
      [vm_compute; reflexivity |].
    reflexivity.
  - intros b. unfold Theme.highlighted.
    destruct (String.eqb_spec current (Theme.theme_of b)); split; intros H;
      try reflexivity; try discriminate; try (symmetry; assumption).
    exfalso. apply n. symmetry. exact H.
Qed.

(** ** Dashboard: further invariants *)

Lemma resume_error (k : Dashboard.Parked) (r : Dashboard.Reply) (s : Dashboard.State) :
  Dashboard.error (Dashboard.resume k r s) = Dashboard.error s \/
  Dashboard.error (Dashboard.resume k r s) <> "".
Proof.
  destruct k, r as [[l | l | l |] |]; simpl; auto; try (right; discriminate).
  destruct accs, strats; auto.
Qed.

Lemma step_keeps_error (s : Dashboard.State) (e : Dashboard.Event) :
  Dashboard.error s <> "" ->
  e <> Dashboard.DismissError ->
  Dashboard.error (Dashboard.step s e) <> "".
Proof.
  intros Herr Hdismiss. unfold Dashboard.step.
  destruct (Dashboard.offered s e); [| exact Herr].
  destruct e; simpl; try exact Herr.
  - destruct (token_eqb (Dashboard.token s) t); exact Herr.
  - contradiction.
  - unfold Dashboard.handleStartBot.
    destruct (Dashboard.selectedAccount s), (Dashboard.selectedStrategy s);
      simpl; try exact Herr; discriminate.
  - unfold Dashboard.handleChargingMode.
    destruct (Dashboard.selectedAccount s), (Dashboard.selectedStrategy s);
      simpl; try exact Herr; discriminate.
  - destruct (nth_error (Dashboard.waiting s) i) as [k |]; [| exact Herr].
    destruct (Dashboard.fits k r); [| exact Herr].
    destruct (resume_error k r (Dashboard.unpark i s)) as [-> | H];
      [exact Herr | exact H].
  - destruct (nth_error (Dashboard.timers s) i); exact Herr.
Qed.

(** X16. An error shown on the dashboard stays until the user closes it: no
    load, trigger, selection or timer clears it, a later success included;
    it can only be replaced by another error message. *)
Theorem error_stays_until_dismissed :
  forall (s : Dashboard.State) (evs : list Dashboard.Event),
    Dashboard.error s <> "" ->
    ~ In Dashboard.DismissError evs ->
    Dashboard.error (Dashboard.run s evs) <> "".
Proof.
  intros s evs. revert s.
  induction evs as [| e evs IH]; intros s Herr Hno; simpl; [exact Herr |].
  apply IH.
  - apply step_keeps_error; [exact Herr |].
    intros ->. apply Hno. left. reflexivity.
  - intros H. apply Hno. right. exact H.
Qed.

Lemma error_stays_until_dismissed_witness :
  let s := Dashboard.run (Dashboard.mount (Some "tok"))
             [Dashboard.Settle 0 Dashboard.Rejected] in
  let evs := [Dashboard.TokenProp (Some "tok2");
              Dashboard.Settle 0 (Dashboard.Fulfilled (Dashboard.Accounts [A1]));
              Dashboard.Settle 0 (Dashboard.Fulfilled (Dashboard.Strategies [S1]));
              Dashboard.Settle 0 (Dashboard.Fulfilled (Dashboard.History [R1]))] in
  (Dashboard.error s <> "" /\ ~ In Dashboard.DismissError evs) /\
  Dashboard.error (Dashboard.run s evs) <> "".
Proof.
  intros s evs.
  assert (Herr : Dashboard.error s <> "") by (vm_compute; discriminate).
  assert (Hno : ~ In Dashboard.DismissError evs).
  { intros H. simpl in H.
    repeat (destruct H as [H | H]; [discriminate H |]). exact H. }
  split; [split; assumption |].
  exact (error_stays_until_dismissed s evs Herr Hno).
Defined.

(** X17. The bot is shown running only after a trigger was sent: the one
    way [botRunning] goes from false to true is Power ON or Charging UP on a
    loaded page with an account and a strategy selected, and that same
    event sends exactly one [POST /simulate/trading] with their ids, the
    chart symbol and the current token. *)
Theorem running_only_after_trigger :
  forall (s : Dashboard.State) (e : Dashboard.Event),
    Dashboard.botRunning s = false ->
    Dashboard.botRunning (Dashboard.step s e) = true ->
    exists a st charging,
      (e = Dashboard.StartBot /\ charging = false \/
       e = Dashboard.ChargingMode /\ charging = true) /\
      Dashboard.isLoading s = false /\
      Dashboard.selectedAccount s = Some a /\
      Dashboard.selectedStrategy s = Some st /\
      Dashboard.net (Dashboard.step s e)
      = Dashboard.net s ++
        [Dashboard.mkReq
           (Dashboard.PostSimulate (account_id a) (strategy_id st)
                                   (Dashboard.chartSymbol s) charging)
           (Dashboard.token s)].
Proof.
  intros s e Hoff Hon. unfold Dashboard.step in *.
  destruct (Dashboard.offered s e) eqn:Hoffer; [| congruence].
  destruct e; simpl in Hon, Hoffer |- *; try congruence.
  - destruct (token_eqb (Dashboard.token s) t); simpl in Hon; congruence.
  - unfold Dashboard.handleStartBot in *.
    destruct (Dashboard.selectedAccount s) as [a |],
             (Dashboard.selectedStrategy s) as [st |];
      simpl in Hon; try congruence.
    exists a, st, false. apply andb_prop in Hoffer. destruct Hoffer as [Hl _].
    apply negb_true_iff in Hl. repeat split; auto.
  - unfold Dashboard.handleChargingMode in *.
    destruct (Dashboard.selectedAccount s) as [a |],
             (Dashboard.selectedStrategy s) as [st |];
      simpl in Hon; try congruence.
    exists a, st, true.
    apply andb_prop in Hoffer. destruct Hoffer as [Hl _].
    apply andb_prop in Hl. destruct Hl as [Hl _].
    apply negb_true_iff in Hl. repeat split; auto.
  - destruct (nth_error (Dashboard.waiting s) i) as [k |]; [| congruence].
    destruct (Dashboard.fits k r); [| congruence].
    rewrite resume_keeps_botRunning in Hon. simpl in Hon. congruence.
  - destruct (nth_error (Dashboard.timers s) i); simpl in Hon; congruence.
Qed.

Lemma running_only_after_trigger_witness :
  let s := Dashboard.run (Dashboard.mount (Some "tok")) loaded in
  (Dashboard.botRunning s = false /\
   Dashboard.botRunning (Dashboard.step s Dashboard.ChargingMode) = true) /\
  exists a st charging,
    (Dashboard.ChargingMode = Dashboard.StartBot /\ charging = false \/
     Dashboard.ChargingMode = Dashboard.ChargingMode /\ charging = true) /\
    Dashboard.isLoading s = false /\
    Dashboard.selectedAccount s = Some a /\
    Dashboard.selectedStrategy s = Some st /\
    Dashboard.net (Dashboard.step s Dashboard.ChargingMode)
    = Dashboard.net s ++
      [Dashboard.mkReq
         (Dashboard.PostSimulate (account_id a) (strategy_id st)
                                 (Dashboard.chartSymbol s) charging)
         (Dashboard.token s)].
Proof.
  intros s.
  assert (Hoff : Dashboard.botRunning s = false) by (vm_compute; reflexivity).
  assert (Hon : Dashboard.botRunning (Dashboard.step s Dashboard.ChargingMode) = true)
    by (vm_compute; reflexivity).
  split; [split; assumption |].
  exact (running_only_after_trigger s Dashboard.ChargingMode Hoff Hon).
Defined.

(** X18. A handler keeps the token it was called under: whatever a parked
    function sends when it is resumed goes out under the token of the
    render that started it, also when the token of the page has changed in
    the meantime; and a settlement sends at most one request. *)
Theorem resumed_requests_keep_token :
  forall (s : Dashboard.State) (i : nat) (k : Dashboard.Parked) (r : Dashboard.Reply),
    nth_error (Dashboard.waiting s) i = Some k ->
    let s' := Dashboard.step s (Dashboard.Settle i r) in
    Dashboard.net s' = Dashboard.net s \/
    exists e, Dashboard.net s'
              = Dashboard.net s ++ [Dashboard.mkReq e (captured_token k)].
Proof.
  intros s i k r Hin s'. subst s'.
  unfold Dashboard.step, Dashboard.offered, Dashboard.handle. rewrite Hin.
  destruct (Dashboard.fits k r); [| left; reflexivity].
  destruct k, r as [[l | l | l |] |]; simpl;
    try (left; reflexivity); try (right; eexists; reflexivity).
  destruct accs, strats; left; reflexivity.
Qed.

Lemma resumed_requests_keep_token_witness :
  let s := Dashboard.run (Dashboard.mount (Some "T1")) [Dashboard.TokenProp (Some "T2")] in
  (nth_error (Dashboard.waiting s) 0 = Some (Dashboard.AwaitAccounts (Some "T1")) /\
   Dashboard.token s = Some "T2") /\
  let s' := Dashboard.step s
              (Dashboard.Settle 0 (Dashboard.Fulfilled (Dashboard.Accounts [A1]))) in
  (Dashboard.net s' = Dashboard.net s \/
   exists e, Dashboard.net s'
             = Dashboard.net s ++ [Dashboard.mkReq e (Some "T1")]).
Proof.
  intros s.
  assert (Hin : nth_error (Dashboard.waiting s) 0
                = Some (Dashboard.AwaitAccounts (Some "T1")))
    by (vm_compute; reflexivity).
  split; [split; [exact Hin | vm_compute; reflexivity] |].
  exact (resumed_requests_keep_token s 0%nat _
           (Dashboard.Fulfilled (Dashboard.Accounts [A1])) Hin).
Defined.

(** X19. The account select chooses by id: the selection becomes the first
    listed account with the chosen id, or none when no listed account has
    it.  Choosing the placeholder entry (the empty id) on a list whose ids
    are all non-empty therefore clears the selection, after which Power ON
    sends nothing and only writes the error. *)
Theorem select_account_by_id :
  forall (s : Dashboard.State) (v : string),
    Dashboard.isLoading s = false ->
    let s1 := Dashboard.step s (Dashboard.SelectAccount v) in
    (forall a, Dashboard.selectedAccount s1 = Some a ->
               In a (Dashboard.accounts s) /\ account_id a = v) /\
    (Dashboard.selectedAccount s1 = None <->
     forall a, In a (Dashboard.accounts s) -> account_id a <> v) /\
    ((forall a, In a (Dashboard.accounts s) -> account_id a <> v) ->
     Dashboard.net (Dashboard.step s1 Dashboard.StartBot) = Dashboard.net s /\
     Dashboard.botRunning (Dashboard.step s1 Dashboard.StartBot) = Dashboard.botRunning s /\
     (Dashboard.botRunning s = false ->
      Dashboard.error (Dashboard.step s1 Dashboard.StartBot) = Dashboard.select_first)).
Proof.
  intros s v Hload s1.
  assert (Hs1 : s1 = Dashboard.setSelectedAccount
                       (find (fun a => String.eqb (account_id a) v) (Dashboard.accounts s)) s).
  { subst s1. unfold Dashboard.step, Dashboard.offered. rewrite Hload. reflexivity. }
  assert (Hnone : find (fun a => String.eqb (account_id a) v) (Dashboard.accounts s) = None <->
                  forall a, In a (Dashboard.accounts s) -> account_id a <> v).
  { split.
    - intros Hfind a Ha Hid.
      pose proof (find_none _ _ Hfind a Ha) as H. simpl in H.
      rewrite Hid, String.eqb_refl in H. discriminate H.
    - intros Hall.
      destruct (find (fun a => String.eqb (account_id a) v) (Dashboard.accounts s))
        as [a |] eqn:Hfind; [| reflexivity].
      apply find_some in Hfind. destruct Hfind as [Ha Hid].
      apply String.eqb_eq in Hid. exfalso. exact (Hall a Ha Hid). }
  rewrite Hs1. simpl. split; [| split].
  - intros a Hfind. apply find_some in Hfind. destruct Hfind as [Ha Hid].
    apply String.eqb_eq in Hid. split; assumption.
  - exact Hnone.
  - intros Hall. apply Hnone in Hall.
    unfold Dashboard.step, Dashboard.offered. simpl. rewrite Hload. simpl.
    destruct (Dashboard.botRunning s) eqn:Hrun; simpl.
    + repeat split; [exact Hrun | intros H; discriminate H].
    + unfold Dashboard.handleStartBot. simpl. rewrite Hall. simpl.
      rewrite Hrun. repeat split.
Qed.

Lemma select_account_by_id_witness :
  let s := Dashboard.run (Dashboard.mount (Some "tok")) loaded in
  Dashboard.isLoading s = false /\
  (Dashboard.selectedAccount (Dashboard.step s (Dashboard.SelectAccount "")) = None <->
   forall a, In a (Dashboard.accounts s) -> account_id a <> "").
Proof.
  intros s.
  assert (Hload : Dashboard.isLoading s = false) by (vm_compute; reflexivity).
  split; [exact Hload |].
  exact (proj1 (proj2 (select_account_by_id s "" Hload))).
Defined.
